(** * readthedocs/oauth/utils.py -- OAuth utility functions

    A shallow embedding of the module: the OAuth session provider, the
    project token lookup, the two paginators, the two importers and the
    GitHub webhook registrar, followed by the properties of the
    specification that concern them.

    Python values that come off the wire are JSON-decoded values ([json]).
    Effects (HTTP calls, database writes, printing, logging) are threaded
    through a state-and-exception monad [M]; the unbounded [while] loops of
    the paginators take fuel, and running out of it is the outcome
    [OutOfFuel], which no [except] clause can catch. *)

From Stdlib Require Import String Ascii List ZArith Bool Lia DecimalString.
Import ListNotations.
Open Scope string_scope.
Set Warnings "-register-all".

(** ** Python values *)

(** Values decoded from JSON.  Numbers are integers here: the module only
    tests a number for truth or formats it. *)
Inductive json : Type :=
| JNull                                   (* None *)
| JBool (b : bool)
| JNum (n : Z)
| JStr (s : string)
| JArr (items : list json)                (* list *)
| JObj (fields : list (string * json)).   (* dict, in insertion order *)

(** Exception classes met in this module.  A subclass of one of the named
    classes is represented by that class; [OtherError] stands for any other
    class that derives from [Exception] (a connection error, a database
    error, ...).  The messages of the built-in errors are those of
    CPython 3; an [except] clause looks at the class only. *)
Inductive exn_class : Type :=
| TypeError | ValueError | KeyError | AttributeError | IndexError
| UnboundLocalError | DoesNotExist | MultipleObjectsReturned
| Exception
| OtherError (name : string).

Record exn : Type := mk_exn { exn_cls : exn_class; exn_msg : string }.

Definition exn_class_eqb (a b : exn_class) : bool :=
  match a, b with
  | TypeError, TypeError | ValueError, ValueError | KeyError, KeyError
  | AttributeError, AttributeError | IndexError, IndexError
  | UnboundLocalError, UnboundLocalError | DoesNotExist, DoesNotExist
  | MultipleObjectsReturned, MultipleObjectsReturned
  | Exception, Exception => true
  | OtherError x, OtherError y => String.eqb x y
  | _, _ => false
  end.

(** [isinstance(e, c)]: every class here derives from [Exception]. *)
Definition isinstance (e : exn) (c : exn_class) : bool :=
  match c with
  | Exception => true
  | _ => exn_class_eqb (exn_cls e) c
  end.

Definition caught_by (classes : list exn_class) (e : exn) : bool :=
  existsb (isinstance e) classes.

(** Result of a call into a collaborator: a value or a raised exception. *)
Inductive result (A : Type) : Type :=
| Ok (a : A)
| Err (e : exn).
Arguments Ok {A} a.
Arguments Err {A} e.

Definition str_truthy (s : string) : bool :=
  match s with EmptyString => false | _ => true end.

(** Truth value of a Python object, as tested by [if x:] and [while x:]. *)
Definition truthy (v : json) : bool :=
  match v with
  | JNull => false
  | JBool b => b
  | JNum n => negb (n =? 0)%Z
  | JStr s => str_truthy s
  | JArr l => match l with [] => false | _ => true end
  | JObj l => match l with [] => false | _ => true end
  end.

Fixpoint assoc {A : Type} (k : string) (l : list (string * A)) : option A :=
  match l with
  | [] => None
  | (k', v) :: rest => if String.eqb k k' then Some v else assoc k rest
  end.

Fixpoint chars (s : string) : list json :=
  match s with
  | EmptyString => []
  | String c rest => JStr (String c EmptyString) :: chars rest
  end.

(** [type(v).__name__] *)
Definition type_name (v : json) : string :=
  match v with
  | JNull => "NoneType"
  | JBool _ => "bool"
  | JNum _ => "int"
  | JStr _ => "str"
  | JArr _ => "list"
  | JObj _ => "dict"
  end.

Definition object_error (c : exn_class) (v : json) (what : string) : exn :=
  mk_exn c ("'" ++ type_name v ++ "' object " ++ what).

(** [iter(v)]: what a [for] loop or [list.extend] walks over. *)
Definition py_iter (v : json) : result (list json) :=
  match v with
  | JArr l => Ok l
  | JObj l => Ok (map (fun kv => JStr (fst kv)) l)
  | JStr s => Ok (chars s)
  | _ => Err (object_error TypeError v "is not iterable")
  end.

(** [v[key]] for a string key. *)
Definition py_getitem (v : json) (key : string) : result json :=
  match v with
  | JObj l => match assoc key l with
              | Some x => Ok x
              | None => Err (mk_exn KeyError ("'" ++ key ++ "'"))
              end
  | JArr _ => Err (mk_exn TypeError "list indices must be integers or slices, not str")
  | JStr _ => Err (mk_exn TypeError "string indices must be integers")
  | _ => Err (object_error TypeError v "is not subscriptable")
  end.

(** [v.get(key)]: only a dict has the method. *)
Definition py_get (v : json) (key : string) : result json :=
  match v with
  | JObj l => Ok (match assoc key l with Some x => x | None => JNull end)
  | _ => Err (object_error AttributeError v "has no attribute 'get'")
  end.

(** [v.keys()]. *)
Definition py_keys (v : json) : result (list string) :=
  match v with
  | JObj l => Ok (map fst l)
  | _ => Err (object_error AttributeError v "has no attribute 'keys'")
  end.

Definition dec (n : Z) : string := NilZero.string_of_int (Z.to_int n).

Definition squote : string := String (ascii_of_nat 39) EmptyString.
Definition dquote : string := String (ascii_of_nat 34) EmptyString.
Definition backslash : string := String (ascii_of_nat 92) EmptyString.

Fixpoint join (sep : string) (l : list string) : string :=
  match l with
  | [] => EmptyString
  | x :: rest => match rest with
                 | [] => x
                 | _ => x ++ sep ++ join sep rest
                 end
  end.

(** [repr(v)], used by [str] on containers.  Strings are rendered between
    single quotes without escapes (an approximation; no property below
    depends on the rendering of a container). *)
Fixpoint py_repr (v : json) : string :=
  match v with
  | JNull => "None"
  | JBool true => "True"
  | JBool false => "False"
  | JNum n => dec n
  | JStr s => squote ++ s ++ squote
  | JArr l => "[" ++ join ", " (map py_repr l) ++ "]"
  | JObj l =>
      "{" ++ join ", "
               (map (fun kv => squote ++ fst kv ++ squote ++ ": " ++ py_repr (snd kv)) l)
          ++ "}"
  end.

(** [str(v)], as produced by ['%s' % v] and ['{x}'.format(x=v)]. *)
Definition py_str (v : json) : string :=
  match v with
  | JStr s => s
  | _ => py_repr v
  end.

(** ** json.dumps *)

Definition hex_digit (n : nat) : ascii :=
  if Nat.ltb n 10 then ascii_of_nat (48 + n) else ascii_of_nat (87 + n).

(** Escape of one character under [ensure_ascii]: everything outside
    [' '..'~'], the double quote and the backslash are escaped. *)
Definition escape_char (c : ascii) : string :=
  let n := nat_of_ascii c in
  if Nat.eqb n 34 then backslash ++ dquote
  else if Nat.eqb n 92 then backslash ++ backslash
  else if Nat.eqb n 10 then backslash ++ "n"
  else if Nat.eqb n 13 then backslash ++ "r"
  else if Nat.eqb n 9 then backslash ++ "t"
  else if Nat.eqb n 8 then backslash ++ "b"
  else if Nat.eqb n 12 then backslash ++ "f"
  else if andb (Nat.leb 32 n) (Nat.leb n 126) then String c EmptyString
  else backslash ++ "u00"
       ++ String (hex_digit (Nat.div n 16)) (String (hex_digit (Nat.modulo n 16)) EmptyString).

Fixpoint escape (s : string) : string :=
  match s with
  | EmptyString => EmptyString
  | String c rest => escape_char c ++ escape rest
  end.

Definition json_string (s : string) : string := dquote ++ escape s ++ dquote.

Fixpoint json_dumps (v : json) : string :=
  match v with
  | JNull => "null"
  | JBool true => "true"
  | JBool false => "false"
  | JNum n => dec n
  | JStr s => json_string s
  | JArr l => "[" ++ join ", " (map json_dumps l) ++ "]"
  | JObj l =>
      "{" ++ join ", "
               (map (fun kv => json_string (fst kv) ++ ": " ++ json_dumps (snd kv)) l)
          ++ "}"
  end.

(** ** Records of the collaborating libraries *)

Record SocialApp : Type := { client_id : string; secret : string }.

Record SocialToken : Type :=
  { app : SocialApp; token : string; token_secret : string }.

Record SocialAccount : Type := { provider : string; uid : string }.

Record User : Type := { username : string }.

Record Project : Type := { pk : Z; repo : string }.

Definition GitHubProvider_id : string := "github".
Definition BitbucketProvider_id : string := "bitbucket".

(** The two session classes of requests_oauthlib, with the arguments the
    module constructs them from. *)
Inductive Session : Type :=
| OAuth2Session (client_id : string) (access_token : string) (token_type : string)
| OAuth1Session (client_key client_secret : string)
                (resource_owner_key resource_owner_secret : string).

(** An HTTP response: [r.status_code], [r.json()] ([None] when the body
    does not decode, in which case [r.json()] raises [ValueError]) and
    [r.links], the parsed [Link] header keyed by relation. *)
Record Response : Type :=
  { status_code : Z;
    json_body : option json;
    links : list (string * list (string * string)) }.

Inductive Request : Type :=
| GET (s : Session) (url : json)
| POST (s : Session) (url : string) (data : string)
       (headers : list (string * string)).

(** [QuerySet.get()] of the ORM on the rows that match. *)
Definition queryset_get {A : Type} (rows : list A) : result A :=
  match rows with
  | [] => Err (mk_exn DoesNotExist "matching query does not exist")
  | [a] => Ok a
  | _ => Err (mk_exn MultipleObjectsReturned "get() returned more than one row")
  end.

(** ** The environment: settings, stores, network and collaborators

    What the module reads and calls but does not define.  The stores and
    the network answer a given query the same way throughout a run; a
    query that fails answers with the exception it raises. *)

Record Env (DB Org : Type) : Type :=
  { (* django.conf.settings; [None] when the attribute is not set *)
    ALLOW_PRIVATE_REPOS : option bool;
    DONT_HIT_DB : option bool;
    PRODUCTION_DOMAIN : string;
    (* SocialToken.objects.filter(account__user__username=u, app__provider=p),
       evaluated *)
    SocialToken_filter : string -> string -> result (list SocialToken);
    (* user.socialaccount_set, evaluated *)
    socialaccount_set : User -> result (list SocialAccount);
    (* project.users.all(), evaluated *)
    project_users : Project -> result (list User);
    (* api.project(pk).token().get() *)
    api_project_token : Z -> result json;
    (* session.get(url), session.post(url, data=, headers=) *)
    http_get : Session -> json -> result Response;
    http_post : Session -> string -> string -> list (string * string) -> result Response;
    (* RemoteRepository.objects.create_from_github_api(repo, user=, organization=) *)
    repo_create_from_github_api : json -> User -> option Org -> DB -> DB * result unit;
    (* RemoteOrganization.objects.create_from_github_api(org, user=) *)
    org_create_from_github_api : json -> User -> DB -> DB * result Org;
    (* RemoteRepository.objects.create_from_bitbucket_api(repo, user=) *)
    repo_create_from_bitbucket_api : json -> User -> DB -> DB * result unit;
    (* build_utils.get_github_username_repo(url=) *)
    get_github_username_repo : string -> option string * option string }.

Arguments ALLOW_PRIVATE_REPOS {DB Org} _.
Arguments DONT_HIT_DB {DB Org} _.
Arguments PRODUCTION_DOMAIN {DB Org} _.
Arguments SocialToken_filter {DB Org} _ _ _.
Arguments socialaccount_set {DB Org} _ _.
Arguments project_users {DB Org} _ _.
Arguments api_project_token {DB Org} _ _.
Arguments http_get {DB Org} _ _ _.
Arguments http_post {DB Org} _ _ _ _ _.
Arguments repo_create_from_github_api {DB Org} _ _ _ _ _.
Arguments org_create_from_github_api {DB Org} _ _ _ _.
Arguments repo_create_from_bitbucket_api {DB Org} _ _ _ _.
Arguments get_github_username_repo {DB Org} _ _.

(** ** The world and the monad *)

Record World (DB : Type) : Type :=
  { db : DB;                               (* RemoteRepository / RemoteOrganization rows *)
    http_log : list Request;               (* HTTP calls made, oldest first *)
    stdout : list string;                  (* lines printed *)
    log_records : list (string * string) } (* (level, message) *).

Arguments db {DB} _.
Arguments http_log {DB} _.
Arguments stdout {DB} _.
Arguments log_records {DB} _.

Inductive outcome (A : Type) : Type :=
| Ret (a : A)
| Raise (e : exn)
| OutOfFuel.
Arguments Ret {A} a.
Arguments Raise {A} e.
Arguments OutOfFuel {A}.

Definition M (DB A : Type) : Type := World DB -> World DB * outcome A.

Definition ret {DB A} (a : A) : M DB A := fun w => (w, Ret a).

Definition raise {DB A} (e : exn) : M DB A := fun w => (w, Raise e).

Definition out_of_fuel {DB A} : M DB A := fun w => (w, OutOfFuel).

Definition bind {DB A B} (m : M DB A) (k : A -> M DB B) : M DB B :=
  fun w =>
    match m w with
    | (w', Ret a) => k a w'
    | (w', Raise e) => (w', Raise e)
    | (w', OutOfFuel) => (w', OutOfFuel)
    end.

Declare Scope py_scope.
Delimit Scope py_scope with py.
Notation "x <- m ;; k" := (bind m (fun x => k))
  (at level 61, m at next level, right associativity) : py_scope.
Notation "m ;;; k" := (bind m (fun _ => k))
  (at level 61, right associativity) : py_scope.
Open Scope py_scope.

(** [try: body except classes: handler(e)] *)
Definition try_except {DB A} (body : M DB A) (classes : list exn_class)
           (handler : exn -> M DB A) : M DB A :=
  fun w =>
    match body w with
    | (w', Raise e) => if caught_by classes e then handler e w' else (w', Raise e)
    | r => r
    end.

Definition lift {DB A} (r : result A) : M DB A :=
  match r with
  | Ok a => ret a
  | Err e => raise e
  end.

(** [for x in l: body(x)] *)
Fixpoint for_each {DB A} (l : list A) (body : A -> M DB unit) : M DB unit :=
  match l with
  | [] => ret tt
  | x :: rest => body x ;;; for_each rest body
  end.

Definition print {DB} (line : string) : M DB unit :=
  fun w => ({| db := db w; http_log := http_log w;
               stdout := stdout w ++ [line];
               log_records := log_records w |}, Ret tt).

Definition log {DB} (level msg : string) : M DB unit :=
  fun w => ({| db := db w; http_log := http_log w; stdout := stdout w;
               log_records := log_records w ++ [(level, msg)] |}, Ret tt).

Definition record_request {DB} (q : Request) (w : World DB) : World DB :=
  {| db := db w; http_log := http_log w ++ [q];
     stdout := stdout w; log_records := log_records w |}.

Definition with_db {DB} (d : DB) (w : World DB) : World DB :=
  {| db := d; http_log := http_log w;
     stdout := stdout w; log_records := log_records w |}.

(** A collaborator that writes to the database. *)
Definition db_call {DB A} (f : DB -> DB * result A) : M DB A :=
  fun w =>
    let (d, r) := f (db w) in
    match r with
    | Ok a => (with_db d w, Ret a)
    | Err e => (with_db d w, Raise e)
    end.

(** ** The module *)

Section Utils.

Context {DB Org : Type} (env : Env DB Org).

(** [session.get(url)]: the call is recorded, then answers or raises. *)
Definition session_get (session : Session) (url : json) : M DB Response :=
  fun w => (record_request (GET session url) w,
            match http_get env session url with
            | Ok r => Ret r
            | Err e => Raise e
            end).

(** [session.post(url, data=data, headers=headers)] *)
Definition session_post (session : Session) (url data : string)
           (headers : list (string * string)) : M DB Response :=
  fun w => (record_request (POST session url data headers) w,
            match http_post env session url data headers with
            | Ok r => Ret r
            | Err e => Raise e
            end).

(** [r.json()] *)
Definition response_json (r : Response) : M DB json :=
  match json_body r with
  | Some j => ret j
  | None => raise (mk_exn ValueError "No JSON object could be decoded")
  end.

(** [tokens.exists()] and [tokens[0]] on the filtered token query set;
    each evaluates the query. *)
Definition tokens_exists (user_name provider_id : string) : M DB bool :=
  rows <- lift (SocialToken_filter env user_name provider_id) ;;
  ret (match rows with [] => false | _ => true end).

Definition tokens_first (user_name provider_id : string) : M DB SocialToken :=
  rows <- lift (SocialToken_filter env user_name provider_id) ;;
  match rows with
  | t :: _ => ret t
  | [] => raise (mk_exn IndexError "list index out of range")
  end.

(** [user.socialaccount_set.get(provider=p)] *)
Definition socialaccount_get (user : User) (p : string) : M DB SocialAccount :=
  rows <- lift (socialaccount_set env user) ;;
  lift (queryset_get (filter (fun a => String.eqb (provider a) p) rows)).

(** Reading a local variable that may not have been assigned. *)
Definition read_local {A} (name : string) (v : option A) : M DB A :=
  match v with
  | Some a => ret a
  | None =>
      raise (mk_exn UnboundLocalError
               ("local variable '" ++ name ++ "' referenced before assignment"))
  end.

(** *** get_oauth_session *)

Definition get_oauth_session (user : User) (provider_id : string)
  : M DB (option Session) :=
  has <- tokens_exists (username user) provider_id ;;
  if has then
    tok <- tokens_first (username user) provider_id ;;
    let session :=
      if String.eqb provider_id GitHubProvider_id then
        Some (OAuth2Session (client_id (app tok)) (token tok) "bearer")
      else if String.eqb provider_id BitbucketProvider_id then
        Some (OAuth1Session (client_id (app tok)) (secret (app tok))
                            (token tok) (token_secret tok))
      else None in
    (* return session or None *)
    s <- read_local "session" session ;;
    ret (Some s)
  else
    ret None.

(** *** get_token_for_project *)

Definition getattr (setting : option bool) (default : bool) : bool :=
  match setting with Some b => b | None => default end.

(** The [for user in project.users.all()] loop; [token0] is the local
    variable [token] it assigns, returned together with the outcome so that an
    assignment made before an exception is kept. *)
Fixpoint local_token_loop (users : list User) (token0 : json)
  : World DB -> World DB * (json * outcome unit) :=
  fun w =>
    match users with
    | [] => (w, (token0, Ret tt))
    | user :: rest =>
        match tokens_exists (username user) GitHubProvider_id w with
        | (w1, Ret true) =>
            match tokens_first (username user) GitHubProvider_id w1 with
            | (w2, Ret t) => local_token_loop rest (JStr (token t)) w2
            | (w2, Raise e) => (w2, (token0, Raise e))
            | (w2, OutOfFuel) => (w2, (token0, OutOfFuel))
            end
        | (w1, Ret false) => local_token_loop rest token0 w1
        | (w1, Raise e) => (w1, (token0, Raise e))
        | (w1, OutOfFuel) => (w1, (token0, OutOfFuel))
        end
    end.

(** The body of the [try] block, started with [token = None]. *)
Definition token_lookup (project : Project) (force_local : bool)
  : World DB -> World DB * (json * outcome unit) :=
  fun w =>
    if andb (getattr (DONT_HIT_DB env) true) (negb force_local) then
      match api_project_token env (pk project) with
      | Ok answer =>
          match py_getitem answer "token" with
          | Ok t => (w, (t, Ret tt))
          | Err e => (w, (JNull, Raise e))
          end
      | Err e => (w, (JNull, Raise e))
      end
    else
      match project_users env project with
      | Ok users => local_token_loop users JNull w
      | Err e => (w, (JNull, Raise e))
      end.

Definition get_token_for_project (project : Project) (force_local : bool)
  : M DB json :=
  if negb (getattr (ALLOW_PRIVATE_REPOS env) false) then ret JNull
  else
    fun w =>
      match token_lookup project force_local w with
      | (w', (token, Raise e)) =>
          (* except Exception: log.error(...) *)
          if isinstance e Exception then
            (log "error" "Failed to get token for user" ;;; ret token) w'
          else (w', Raise e)
      | (w', (token, Ret _)) => (w', Ret token)
      | (w', (token, OutOfFuel)) => (w', OutOfFuel)
      end.

(** *** github_paginate *)

(** Lines 81-85: the next URL read from the [Link] header. *)
Definition github_next (r : Response) : option string :=
  match assoc "next" (links r) with
  | Some next_url =>
      match next_url with
      | [] => None
      | _ => assoc "url" next_url
      end
  | None => None
  end.

Fixpoint github_paginate_loop (fuel : nat) (session : Session)
         (url : option string) (result : list json) : M DB (list json) :=
  match url with
  | None => ret result
  | Some u =>
      if str_truthy u then
        match fuel with
        | O => out_of_fuel
        | S fuel' =>
            r <- session_get session (JStr u) ;;
            page <- response_json r ;;
            items <- lift (py_iter page) ;;
            github_paginate_loop fuel' session (github_next r) (result ++ items)
        end
      else ret result
  end.

Definition github_paginate (fuel : nat) (session : Session) (url : string)
  : M DB (list json) :=
  github_paginate_loop fuel session (Some url) [].

(** *** import_github *)

Definition github_repos_error : exn :=
  mk_exn Exception
    "Could not sync your GitHub repositories, try reconnecting your account".

Definition github_orgs_error : exn :=
  mk_exn Exception
    "Could not sync your GitHub organizations, try reconnecting your account".

(** Body of the first [try]: upsert every listed repository. *)
Definition github_user_repos (user : User) (owner_resp : list json) : M DB unit :=
  for_each owner_resp
    (fun repo => db_call (repo_create_from_github_api env repo user None)).

(** Body of the second [try]: organizations and their repositories. *)
Definition github_org_repos (fuel : nat) (session : Session) (user : User)
  : M DB unit :=
  resp <- session_get session (JStr "https://api.github.com/user/orgs") ;;
  orgs_json <- response_json resp ;;
  orgs <- lift (py_iter orgs_json) ;;
  for_each orgs
    (fun org_json =>
       login <- lift (py_getitem org_json "login") ;;
       org_resp <- session_get session
                     (JStr ("https://api.github.com/orgs/" ++ py_str login)) ;;
       org_detail <- response_json org_resp ;;
       org_obj <- db_call (org_create_from_github_api env org_detail user) ;;
       login <- lift (py_getitem org_json "login") ;;
       org_repos_resp <-
         github_paginate fuel session
           ("https://api.github.com/orgs/" ++ py_str login ++ "/repos?per_page=100") ;;
       for_each org_repos_resp
         (fun repo =>
            db_call (repo_create_from_github_api env repo user (Some org_obj)))).

Definition is_not_None {A} (o : option A) : bool :=
  match o with Some _ => true | None => false end.

Definition import_github (fuel : nat) (user : User) (sync : bool) : M DB bool :=
  session <- get_oauth_session user GitHubProvider_id ;;
  (match session with
   | Some s =>
       if sync then
         owner_resp <- github_paginate fuel s
                         "https://api.github.com/user/repos?per_page=100" ;;
         try_except (github_user_repos user owner_resp)
                    [TypeError; ValueError]
                    (fun _ => raise github_repos_error) ;;;
         try_except (github_org_repos fuel s user)
                    [TypeError; ValueError]
                    (fun _ => raise github_orgs_error)
       else ret tt
   | None => ret tt
   end) ;;;
  ret (is_not_None session).

(** *** add_github_webhook *)

Definition format_opt (o : option string) : string :=
  match o with Some s => s | None => "None" end.

Definition github_webhook_payload : json :=
  JObj [("name", JStr "readthedocs");
        ("active", JBool true);
        ("config",
         JObj [("url", JStr ("https://" ++ PRODUCTION_DOMAIN env ++ "/github"))])].

Definition add_github_webhook (session : Session) (project : Project)
  : M DB Response :=
  let (owner, repo_name) := get_github_username_repo env (repo project) in
  let data := json_dumps github_webhook_payload in
  resp <- session_post session
            ("https://api.github.com/repos/" ++ format_opt owner ++ "/"
               ++ format_opt repo_name ++ "/hooks")
            data
            [("content-type", "application/json")] ;;
  log "info" ("Creating GitHub webhook response code: " ++ dec (status_code resp)) ;;;
  ret resp.

(** *** bitbucket_paginate *)

Fixpoint bitbucket_paginate_loop (fuel : nat) (session : Session)
         (url : json) (result : list json) : M DB (list json) :=
  if truthy url then
    match fuel with
    | O => out_of_fuel
    | S fuel' =>
        r <- session_get session url ;;
        page <- response_json r ;;
        let result := (result ++ [page])%list in
        page' <- response_json r ;;
        next_url <- lift (py_get page' "next") ;;
        bitbucket_paginate_loop fuel' session
          (if truthy next_url then next_url else JNull) result
    end
  else ret result.

Definition bitbucket_paginate (fuel : nat) (session : Session) (url : string)
  : M DB (list json) :=
  bitbucket_paginate_loop fuel session (JStr url) [].

(** *** process_bitbucket_json *)

(** Body of the [try]: the two nested loops. *)
Definition process_pages (user : User) (pages : list json) : M DB unit :=
  for_each pages
    (fun page =>
       values <- lift (py_getitem page "values") ;;
       repos <- lift (py_iter values) ;;
       for_each repos
         (fun repo => db_call (repo_create_from_bitbucket_api env repo user))).

Definition process_bitbucket_json (user : User) (pages : list json) : M DB unit :=
  try_except (process_pages user pages) [TypeError]
             (fun e => print (exn_msg e)).

(** *** import_bitbucket *)

Definition bitbucket_repos_error : exn :=
  mk_exn Exception
    "Could not sync your Bitbucket repositories, try reconnecting your account".

Definition bitbucket_teams_error : exn :=
  mk_exn Exception
    "Could not sync your Bitbucket team repositories, try reconnecting your account".

(** Body of the first [try]: the user's own repositories. *)
Definition bitbucket_user_repos (fuel : nat) (session : Session) (user : User)
           (social_account : option SocialAccount) : M DB unit :=
  account <- read_local "social_account" social_account ;;
  owner_resp <- bitbucket_paginate fuel session
                  ("https://bitbucket.org/api/2.0/repositories/" ++ uid account) ;;
  process_bitbucket_json user owner_resp.

(** Body of the second [try]: the repositories of every team. *)
Definition bitbucket_team_repos (fuel : nat) (session : Session) (user : User)
           (resp : Response) : M DB unit :=
  privileges <- response_json resp ;;
  teams <- lift (py_getitem privileges "teams") ;;
  names <- lift (py_keys teams) ;;
  for_each names
    (fun team =>
       org_resp <- bitbucket_paginate fuel session
                     ("https://bitbucket.org/api/2.0/teams/" ++ team ++ "/repositories") ;;
       process_bitbucket_json user org_resp).

Definition import_bitbucket (fuel : nat) (user : User) (sync : bool) : M DB bool :=
  session <- get_oauth_session user BitbucketProvider_id ;;
  social_account <-
    try_except (a <- socialaccount_get user BitbucketProvider_id ;; ret (Some a))
               [DoesNotExist]
               (fun _ => ret None) ;;
  (match session with
   | Some s =>
       if sync then
         try_except (bitbucket_user_repos fuel s user social_account)
                    [TypeError; ValueError]
                    (fun _ => raise bitbucket_repos_error) ;;;
         resp <- session_get s (JStr "https://bitbucket.org/api/1.0/user/privileges/") ;;
         try_except (bitbucket_team_repos fuel s user resp)
                    [ValueError]
                    (fun _ => raise bitbucket_teams_error)
       else ret tt
   | None => ret tt
   end) ;;;
  ret (is_not_None session).

End Utils.

(** *** add_bitbucket_webhook *)

Section BitbucketWebhook.

Context {DB Org : Type} (env : Env DB Org).

(** Two more collaborators: [build_utils.get_bitbucket_username_repo(url=)],
    and the form encoding that the HTTP client applies to a dict passed as
    [data=]. *)
Context (get_bitbucket_username_repo : string -> option string * option string)
        (urlencode : list (string * string) -> string).

Definition bitbucket_webhook_data : list (string * string) :=
  [("type", "POST");
   ("url", "https://" ++ PRODUCTION_DOMAIN env ++ "/bitbucket")].

Definition add_bitbucket_webhook (session : Session) (project : Project)
  : M DB Response :=
  let (owner, repo_name) := get_bitbucket_username_repo (repo project) in
  let data := bitbucket_webhook_data in
  resp <- session_post env session
            ("https://api.bitbucket.org/1.0/repositories/" ++ format_opt owner
               ++ "/" ++ format_opt repo_name ++ "/services")
            (urlencode data)
            [] ;;
  log "info" ("Creating BitBucket webhook response code: " ++ dec (status_code resp)) ;;;
  ret resp.

End BitbucketWebhook.

(** * Vocabulary of the properties *)

(** The world after some more HTTP calls. *)
Definition add_requests {DB} (qs : list Request) (w : World DB) : World DB :=
  {| db := db w; http_log := (http_log w ++ qs)%list;
     stdout := stdout w; log_records := log_records w |}.

Section Chains.

Context {DB Org : Type} (env : Env DB Org).

(** The URL the loop goes on with, if any: [while url] stops on [None] and
    on the empty string. *)
Definition live (url : option string) : option string :=
  match url with
  | Some u => if str_truthy u then Some u else None
  | None => None
  end.

Definition gets (session : Session) (urls : list json) : list Request :=
  map (GET session) urls.

(** A finite chain of GitHub pages starting at [url]: every page is
    fetched and decodes to something iterable, every page but the last one
    names a next URL.  Each entry is the URL and the items of a page. *)
Inductive github_chain (session : Session)
  : string -> list (string * list json) -> Prop :=
| github_chain_last url r page items :
    str_truthy url = true ->
    http_get env session (JStr url) = Ok r ->
    json_body r = Some page ->
    py_iter page = Ok items ->
    live (github_next r) = None ->
    github_chain session url [(url, items)]
| github_chain_next url r page items url' rest :
    str_truthy url = true ->
    http_get env session (JStr url) = Ok r ->
    json_body r = Some page ->
    py_iter page = Ok items ->
    live (github_next r) = Some url' ->
    github_chain session url' rest ->
    github_chain session url ((url, items) :: rest).

(** An endless chain: page [i] is at [u i] and names [u (i+1)]. *)
Definition github_endless (session : Session) (u : nat -> string) : Prop :=
  forall i, exists r page items,
    str_truthy (u i) = true /\
    http_get env session (JStr (u i)) = Ok r /\
    json_body r = Some page /\
    py_iter page = Ok items /\
    github_next r = Some (u (S i)).

(** A finite chain of Bitbucket pages starting at [url]: every page is
    fetched and decodes to a dict, every page but the last one holds a true
    [next] value.  Each entry is the URL and the page object. *)
Inductive bitbucket_chain (session : Session)
  : json -> list (json * json) -> Prop :=
| bitbucket_chain_last url r page next_url :
    truthy url = true ->
    http_get env session url = Ok r ->
    json_body r = Some page ->
    py_get page "next" = Ok next_url ->
    truthy next_url = false ->
    bitbucket_chain session url [(url, page)]
| bitbucket_chain_next url r page next_url rest :
    truthy url = true ->
    http_get env session url = Ok r ->
    json_body r = Some page ->
    py_get page "next" = Ok next_url ->
    truthy next_url = true ->
    bitbucket_chain session next_url rest ->
    bitbucket_chain session url ((url, page) :: rest).

Definition bitbucket_endless (session : Session) (u : nat -> json) : Prop :=
  forall i, exists r page,
    truthy (u i) = true /\
    http_get env session (u i) = Ok r /\
    json_body r = Some page /\
    py_get page "next" = Ok (u (S i)).

(** GitHub pages linked through the [next] relation of the [Link] header:
    the page at [url] holds a JSON array, and either names no [next]
    relation (last page) or names the URL of the page that follows. *)
Inductive github_pages (session : Session)
  : string -> list (list json) -> Prop :=
| github_pages_last url r items :
    url <> EmptyString ->
    http_get env session (JStr url) = Ok r ->
    json_body r = Some (JArr items) ->
    assoc "next" (links r) = None ->
    github_pages session url [items]
| github_pages_next url r items link url' rest :
    url <> EmptyString ->
    http_get env session (JStr url) = Ok r ->
    json_body r = Some (JArr items) ->
    assoc "next" (links r) = Some link ->
    assoc "url" link = Some url' ->
    github_pages session url' rest ->
    github_pages session url (items :: rest).

(** Bitbucket pages linked through the [next] field of the body: the page
    at [url] is a JSON object, and either has no [next] field (last page)
    or holds there the URL of the page that follows. *)
Inductive bitbucket_pages (session : Session)
  : string -> list json -> Prop :=
| bitbucket_pages_last url r fields :
    url <> EmptyString ->
    http_get env session (JStr url) = Ok r ->
    json_body r = Some (JObj fields) ->
    assoc "next" fields = None ->
    bitbucket_pages session url [JObj fields]
| bitbucket_pages_next url r fields url' rest :
    url <> EmptyString ->
    http_get env session (JStr url) = Ok r ->
    json_body r = Some (JObj fields) ->
    assoc "next" fields = Some (JStr url') ->
    bitbucket_pages session url' rest ->
    bitbucket_pages session url (JObj fields :: rest).

End Chains.

(** The same environment over another network. *)
Definition with_http_get {DB Org : Type}
           (get : Session -> json -> result Response) (env : Env DB Org)
  : Env DB Org :=
  {| ALLOW_PRIVATE_REPOS := ALLOW_PRIVATE_REPOS env;
     DONT_HIT_DB := DONT_HIT_DB env;
     PRODUCTION_DOMAIN := PRODUCTION_DOMAIN env;
     SocialToken_filter := SocialToken_filter env;
     socialaccount_set := socialaccount_set env;
     project_users := project_users env;
     api_project_token := api_project_token env;
     http_get := get;
     http_post := http_post env;
     repo_create_from_github_api := repo_create_from_github_api env;
     org_create_from_github_api := org_create_from_github_api env;
     repo_create_from_bitbucket_api := repo_create_from_bitbucket_api env;
     get_github_username_repo := get_github_username_repo env |}.

(** [k] more characters in front of a URL. *)
Fixpoint pad (k : nat) (url : string) : string :=
  match k with
  | O => url
  | S k' => String "x" (pad k' url)
  end.

(** A network of [n + 1] linked pages behind [url]: the page at [pad k url]
    names [pad (k + 1) url] as long as [k < n]. *)
Definition long_github (n : nat) (url : string)
  : Session -> json -> result Response :=
  fun _ v =>
    match v with
    | JStr u =>
        Ok {| status_code := 200;
              json_body := Some (JArr []);
              links := if Nat.ltb (String.length u - String.length url) n
                       then [("next", [("url", String "x" u)])]
                       else [] |}
    | _ => Err (mk_exn (OtherError "MissingSchema") "invalid URL")
    end.

Definition long_bitbucket (n : nat) (url : string)
  : Session -> json -> result Response :=
  fun _ v =>
    match v with
    | JStr u =>
        Ok {| status_code := 200;
              json_body :=
                Some (JObj (if Nat.ltb (String.length u - String.length url) n
                            then [("next", JStr (String "x" u))]
                            else []));
              links := [] |}
    | _ => Err (mk_exn (OtherError "MissingSchema") "invalid URL")
    end.

(** ** A concrete environment

    The database holds the identities of the mirrored repositories and
    organizations, in creation order. *)

Module Fixture.

Record Store : Type :=
  { repositories : list (string * option string);  (* full name, organization *)
    organizations : list string }.

Definition empty_store : Store := {| repositories := []; organizations := [] |}.

Fixpoint upsert {A : Type} (k : string) (v : A) (l : list (string * A))
  : list (string * A) :=
  match l with
  | [] => [(k, v)]
  | (k', v') :: rest =>
      if String.eqb k k' then (k, v) :: rest else (k', v') :: upsert k v rest
  end.

(** Modelled from the spec: the repository creation collaborators
    ([RemoteRepository.objects.create_from_github_api] and
    [create_from_bitbucket_api]) are not part of this module.  Following
    section 3 of the specification, a repository record is created or
    updated, keyed by the vendor identity of the repository (read here from
    the [full_name] field of the vendor object), so that a second run does
    not duplicate it. *)
Definition create_repository (api_json : json) (organization : option string)
           (s : Store) : Store * result unit :=
  match py_getitem api_json "full_name" with
  | Ok name =>
      ({| repositories := upsert (py_str name) organization (repositories s);
          organizations := organizations s |}, Ok tt)
  | Err e => (s, Err e)
  end.

(** Modelled from the spec: [RemoteOrganization.objects.create_from_github_api]
    is not part of this module.  An organization record is created or
    updated, keyed by the [login] of the vendor object, and returned. *)
Definition create_organization (api_json : json) (s : Store)
  : Store * result string :=
  match py_getitem api_json "login" with
  | Ok name =>
      let login := py_str name in
      ({| repositories := repositories s;
          organizations :=
            if existsb (String.eqb login) (organizations s)
            then organizations s else (organizations s ++ [login])%list |},
       Ok login)
  | Err e => (s, Err e)
  end.

Definition drop_suffix (suffix s : string) : string :=
  let n := String.length s - String.length suffix in
  if String.eqb (substring n (String.length suffix) s) suffix
  then substring 0 n s else s.

(** Modelled from the spec: [build_utils.get_github_username_repo] is not
    part of this module.  It derives owner and repository name from the
    source URL of a project; this one reads the [github.com:owner/repo.git]
    form and answers [(None, None)] otherwise. *)
Definition parse_github_url (url : string) : option string * option string :=
  match index 0 "github.com:" url with
  | Some i =>
      let start := i + String.length "github.com:" in
      let path := substring start (String.length url - start) url in
      match index 0 "/" path with
      | Some j =>
          (Some (substring 0 j path),
           Some (drop_suffix ".git"
                   (substring (S j) (String.length path - S j) path)))
      | None => (None, None)
      end
  | None => (None, None)
  end.

Definition no_response : result Response :=
  Err (mk_exn (OtherError "ConnectionError") "no route to host").

(** An environment with private repositories allowed, projects without
    users, the given credential and account stores, and a network that
    answers through [get] and [post]. *)
Definition make_env
           (tokens : string -> string -> result (list SocialToken))
           (accounts : User -> result (list SocialAccount))
           (get : Session -> json -> result Response)
           (post : Session -> string -> string -> list (string * string)
                   -> result Response)
  : Env Store string :=
  {| ALLOW_PRIVATE_REPOS := Some true;
     DONT_HIT_DB := Some false;
     PRODUCTION_DOMAIN := "readthedocs.org";
     SocialToken_filter := tokens;
     socialaccount_set := accounts;
     project_users := fun _ => Ok [];
     api_project_token := fun _ => Err (mk_exn (OtherError "HttpClientError") "404");
     http_get := get;
     http_post := post;
     repo_create_from_github_api :=
       fun api_json _ organization => create_repository api_json organization;
     org_create_from_github_api := fun api_json _ => create_organization api_json;
     repo_create_from_bitbucket_api :=
       fun api_json _ => create_repository api_json None;
     get_github_username_repo := parse_github_url |}.

Definition world0 : World Store :=
  {| db := empty_store; http_log := []; stdout := []; log_records := [] |}.

Definition github_session : Session := OAuth2Session "client" "secret-token" "bearer".
Definition bitbucket_session : Session := OAuth1Session "key" "secret" "owner-key" "owner-secret".

Definition alice : User := {| username := "alice" |}.

Definition github_token : SocialToken :=
  {| app := {| client_id := "client"; secret := "app-secret" |};
     token := "secret-token"; token_secret := EmptyString |}.

Definition bitbucket_token : SocialToken :=
  {| app := {| client_id := "key"; secret := "secret" |};
     token := "owner-key"; token_secret := "owner-secret" |}.

(** Credentials of [alice] for one provider only. *)
Definition tokens_for (provider_id : string) (t : SocialToken)
  : string -> string -> result (list SocialToken) :=
  fun user_name p =>
    if andb (String.eqb user_name "alice") (String.eqb p provider_id)
    then Ok [t] else Ok [].

Definition no_tokens : string -> string -> result (list SocialToken) :=
  fun _ _ => Ok [].

Definition no_post : Session -> string -> string -> list (string * string)
                     -> result Response :=
  fun _ _ _ _ => no_response.

Definition page (body : json) (next : option string) : Response :=
  {| status_code := 200;
     json_body := Some body;
     links := match next with
              | Some u => [("next", [("url", u); ("rel", "next")])]
              | None => []
              end |}.

(** A network defined by a table from URL to response. *)
Definition serve (table : list (string * Response))
  : Session -> json -> result Response :=
  fun _ url =>
    match url with
    | JStr u => match assoc u table with
                | Some r => Ok r
                | None => no_response
                end
    | _ => no_response
    end.

Definition repo_json (name : string) : json :=
  JObj [("full_name", JStr name); ("private", JBool false)].

(** Three GitHub pages of 100, 100 and 1 repositories. *)
Definition repos_url : string := "https://api.github.com/user/repos?per_page=100".
Definition repos_url2 : string := "https://api.github.com/user/repos?per_page=100&page=2".
Definition repos_url3 : string := "https://api.github.com/user/repos?per_page=100&page=3".

Definition hundred : list json := repeat (repo_json "alice/docs") 100.
Definition last_one : list json := [repo_json "alice/site"].

Definition three_pages : Env Store string :=
  make_env (tokens_for "github" github_token) (fun _ => Ok [])
    (serve [(repos_url, page (JArr hundred) (Some repos_url2));
            (repos_url2, page (JArr hundred) (Some repos_url3));
            (repos_url3, page (JArr last_one) None)])
    no_post.

(** Two Bitbucket pages. *)
Definition bb_url : string := "https://bitbucket.org/api/2.0/repositories/alice".
Definition bb_url2 : string := "https://bitbucket.org/api/2.0/repositories/alice?page=2".

Definition bb_page1 : json :=
  JObj [("values", JArr [repo_json "alice/docs"]); ("next", JStr bb_url2)].
Definition bb_page2 : json :=
  JObj [("values", JArr [repo_json "alice/site"])].

Definition two_pages : Env Store string :=
  make_env (tokens_for "bitbucket" bitbucket_token)
    (fun _ => Ok [{| provider := "bitbucket"; uid := "alice" |}])
    (serve [(bb_url, page bb_page1 None); (bb_url2, page bb_page2 None)])
    no_post.

(** A project hosted on GitHub, and a network that accepts the webhook. *)
Definition docs_project : Project :=
  {| pk := 7; repo := "git@github.com:owner/repo.git" |}.

Definition created : Response :=
  {| status_code := 201; json_body := Some (JObj []); links := [] |}.

Definition hooks : Env Store string :=
  make_env (tokens_for "github" github_token) (fun _ => Ok [])
    (serve []) (fun _ _ _ _ => Ok created).

(** [alice] holds a Bitbucket credential but no Bitbucket account record. *)
Definition no_account : Env Store string :=
  make_env (tokens_for "bitbucket" bitbucket_token)
    (fun _ => Ok [{| provider := "github"; uid := "alice" |}])
    (serve []) no_post.

(** [alice] holds no credential at all. *)
Definition no_credential : Env Store string :=
  make_env no_tokens (fun _ => Ok [{| provider := "bitbucket"; uid := "alice" |}])
    (serve []) no_post.

(** [alice] holds no credential and has connected two Bitbucket accounts. *)
Definition two_accounts : Env Store string :=
  make_env no_tokens
    (fun _ => Ok [{| provider := "bitbucket"; uid := "alice" |};
                  {| provider := "bitbucket"; uid := "alice-work" |}])
    (serve []) no_post.

(** Bitbucket networks.  [privileges] answers the team listing. *)
Definition privileges_url : string := "https://bitbucket.org/api/1.0/user/privileges/".

Definition with_account : User -> result (list SocialAccount) :=
  fun _ => Ok [{| provider := "bitbucket"; uid := "alice" |}].

Definition bitbucket_env (table : list (string * Response)) : Env Store string :=
  make_env (tokens_for "bitbucket" bitbucket_token) with_account (serve table) no_post.

Definition no_teams : json := JObj [("teams", JObj [])].

Definition null_page : json := JObj [("values", JNull)].

(** The first page of the user's repositories holds [null] values. *)
Definition null_values : Env Store string :=
  bitbucket_env [(bb_url, page null_page None);
                 (privileges_url, page no_teams None)].

(** The team listing answers a JSON array instead of an object. *)
Definition list_privileges : Env Store string :=
  bitbucket_env [(bb_url, page (JObj [("values", JArr [])]) None);
                 (privileges_url, page (JArr []) None)].

(** The first page of the user's repositories is not JSON. *)
Definition html_page : Response :=
  {| status_code := 502; json_body := None; links := [] |}.

Definition html_first_page : Env Store string :=
  bitbucket_env [(bb_url, html_page)].

Definition store_with (names : list string) : Store :=
  {| repositories := map (fun n => (n, None)) names; organizations := [] |}.

(** GitHub networks.  [orgs_url] answers the organization listing. *)
Definition orgs_url : string := "https://api.github.com/user/orgs".

Definition github_env (table : list (string * Response)) : Env Store string :=
  make_env (tokens_for "github" github_token) (fun _ => Ok []) (serve table) no_post.

(** The repository listing is an empty JSON object. *)
Definition empty_object : Env Store string :=
  github_env [(repos_url, page (JObj []) None); (orgs_url, page (JArr []) None)].

(** The repository listing is [null]. *)
Definition null_listing : Env Store string :=
  github_env [(repos_url, page JNull None); (orgs_url, page (JArr []) None)].

(** The repository listing is the error object of the vendor. *)
Definition bad_credentials_body : json :=
  JObj [("message", JStr "Bad credentials");
        ("documentation_url", JStr "https://developer.github.com/v3")].

Definition bad_credentials : Env Store string :=
  github_env [(repos_url, page bad_credentials_body None);
              (orgs_url, page (JArr []) None)].

(** The repository listing holds a number between two repositories. *)
Definition mixed_listing : Env Store string :=
  github_env [(repos_url,
               page (JArr [repo_json "alice/docs"; JNum 5; repo_json "alice/site"])
                    None);
              (orgs_url, page (JArr []) None)].

(** A project of [alice] and [bob]; the credential store answers for
    [alice] and fails for [bob]. *)
Definition bob : User := {| username := "bob" |}.

Definition database_error : exn :=
  mk_exn (OtherError "OperationalError") "server closed the connection".

Definition broken_store : Env Store string :=
  {| ALLOW_PRIVATE_REPOS := Some true;
     DONT_HIT_DB := Some false;
     PRODUCTION_DOMAIN := "readthedocs.org";
     SocialToken_filter :=
       fun user_name p =>
         if String.eqb user_name "bob" then Err database_error
         else tokens_for "github" github_token user_name p;
     socialaccount_set := fun _ => Ok [];
     project_users := fun _ => Ok [alice; bob];
     api_project_token := fun _ => Err (mk_exn (OtherError "HttpClientError") "404");
     http_get := serve [];
     http_post := no_post;
     repo_create_from_github_api :=
       fun api_json _ organization => create_repository api_json organization;
     org_create_from_github_api := fun api_json _ => create_organization api_json;
     repo_create_from_bitbucket_api :=
       fun api_json _ => create_repository api_json None;
     get_github_username_repo := parse_github_url |}.

(** A GitHub account with one repository and one organization. *)
Definition with_org : Env Store string :=
  github_env
    [(repos_url, page (JArr [repo_json "alice/docs"]) None);
     (orgs_url, page (JArr [JObj [("login", JStr "acme")]]) None);
     ("https://api.github.com/orgs/acme",
      page (JObj [("login", JStr "acme"); ("name", JStr "Acme")]) None);
     ("https://api.github.com/orgs/acme/repos?per_page=100",
      page (JArr [repo_json "acme/tool"]) None)].

(** A Bitbucket account with two pages of repositories and one team. *)
Definition with_team : Env Store string :=
  bitbucket_env
    [(bb_url, page bb_page1 None);
     (bb_url2, page bb_page2 None);
     (privileges_url, page (JObj [("teams", JObj [("acme", JStr "admin")])]) None);
     ("https://bitbucket.org/api/2.0/teams/acme/repositories",
      page (JObj [("values", JArr [repo_json "acme/tool"])]) None)].

(** A listing whose only page names itself as the next one. *)
Definition cycle : Env Store string :=
  github_env [(repos_url, page (JArr [repo_json "alice/docs"]) (Some repos_url))].

(** [alice] holds a credential for a provider the module does not know. *)
Definition gitlab_only : Env Store string :=
  make_env (tokens_for "gitlab" github_token) (fun _ => Ok []) (serve []) no_post.

(** [alice] holds two GitHub credentials. *)
Definition second_token : SocialToken :=
  {| app := {| client_id := "client-2"; secret := "app-secret-2" |};
     token := "other-token"; token_secret := EmptyString |}.

Definition two_tokens : Env Store string :=
  make_env (fun user_name p =>
              if andb (String.eqb user_name "alice") (String.eqb p "github")
              then Ok [github_token; second_token] else Ok [])
    (fun _ => Ok []) (serve []) no_post.

(** Token lookups.  [configured allow remote users api] sets the two
    settings, the users of every project and the answer of the API; the
    credential store is the one of [alice] and [bob] below. *)
Definition bob_token : SocialToken :=
  {| app := {| client_id := "client"; secret := "app-secret" |};
     token := "bob-token"; token_secret := EmptyString |}.

Definition carol : User := {| username := "carol" |}.

Definition tokens_of_alice_and_bob : string -> string -> result (list SocialToken) :=
  fun user_name p =>
    if String.eqb p "github" then
      if String.eqb user_name "alice" then Ok [github_token]
      else if String.eqb user_name "bob" then Ok [bob_token]
      else Ok []
    else Ok [].

Definition configured (allow remote : option bool)
           (users : result (list User)) (api : result json)
  : Env Store string :=
  {| ALLOW_PRIVATE_REPOS := allow;
     DONT_HIT_DB := remote;
     PRODUCTION_DOMAIN := "readthedocs.org";
     SocialToken_filter := tokens_of_alice_and_bob;
     socialaccount_set := fun _ => Ok [];
     project_users := fun _ => users;
     api_project_token := fun _ => api;
     http_get := serve [];
     http_post := no_post;
     repo_create_from_github_api :=
       fun api_json _ organization => create_repository api_json organization;
     org_create_from_github_api := fun api_json _ => create_organization api_json;
     repo_create_from_bitbucket_api :=
       fun api_json _ => create_repository api_json None;
     get_github_username_repo := parse_github_url |}.

(** The organization listing is not JSON, after one listed repository. *)
Definition orgs_html : Env Store string :=
  github_env [(repos_url, page (JArr [repo_json "alice/docs"]) None);
              (orgs_url, html_page)].

(** The organization listing holds an organization without [login]. *)
Definition org_without_login : Env Store string :=
  github_env [(repos_url, page (JArr [repo_json "alice/docs"]) None);
              (orgs_url, page (JArr [JObj [("id", JNum 7)]]) None)].

(** Two listed repositories and no organization. *)
Definition no_org : Env Store string :=
  github_env [(repos_url,
               page (JArr [repo_json "alice/docs"; repo_json "alice/site"]) None);
              (orgs_url, page (JArr []) None)].

(** The first Bitbucket page is a JSON array. *)
Definition array_page : Env Store string :=
  bitbucket_env [(bb_url, page (JArr [repo_json "alice/docs"]) None);
                 (privileges_url, page no_teams None)].

(** Two pages of repositories and no team. *)
Definition no_team : Env Store string :=
  bitbucket_env [(bb_url, page bb_page1 None);
                 (bb_url2, page bb_page2 None);
                 (privileges_url, page no_teams None)].

(** Modelled from the spec: [build_utils.get_bitbucket_username_repo] is
    not part of this module.  It derives owner and repository name from the
    source URL of a project; this one reads the
    [bitbucket.org:owner/repo.git] form and answers [(None, None)]
    otherwise. *)
Definition parse_bitbucket_url (url : string) : option string * option string :=
  match index 0 "bitbucket.org:" url with
  | Some i =>
      let start := i + String.length "bitbucket.org:" in
      let path := substring start (String.length url - start) url in
      match index 0 "/" path with
      | Some j =>
          (Some (substring 0 j path),
           Some (drop_suffix ".git"
                   (substring (S j) (String.length path - S j) path)))
      | None => (None, None)
      end
  | None => (None, None)
  end.

(** The form encoding of a dict as CPython 3 does it ([urlencode] with
    [quote_plus]): letters, digits and [_.-~] stay, a space becomes [+],
    any other character is percent-encoded. *)
Definition is_unreserved (c : ascii) : bool :=
  let n := nat_of_ascii c in
  orb (andb (Nat.leb 48 n) (Nat.leb n 57))
      (orb (andb (Nat.leb 65 n) (Nat.leb n 90))
           (orb (andb (Nat.leb 97 n) (Nat.leb n 122))
                (orb (Nat.eqb n 45)
                     (orb (Nat.eqb n 46) (orb (Nat.eqb n 95) (Nat.eqb n 126)))))).

Definition hex_upper (n : nat) : ascii :=
  if Nat.ltb n 10 then ascii_of_nat (48 + n) else ascii_of_nat (55 + n).

Fixpoint quote_plus (s : string) : string :=
  match s with
  | EmptyString => EmptyString
  | String c rest =>
      let n := nat_of_ascii c in
      (if is_unreserved c then String c EmptyString
       else if Nat.eqb n 32 then "+"
       else String "%" (String (hex_upper (Nat.div n 16))
                          (String (hex_upper (Nat.modulo n 16)) EmptyString)))
        ++ quote_plus rest
  end.

Definition urlencode (fields : list (string * string)) : string :=
  join "&" (map (fun kv => quote_plus (fst kv) ++ "=" ++ quote_plus (snd kv)) fields).

Definition bitbucket_project : Project :=
  {| pk := 8; repo := "git@bitbucket.org:owner/repo.git" |}.

Definition python_project : Project :=
  {| pk := 9; repo := "https://hg.python.org/cpython" |}.

Definition not_found : Response :=
  {| status_code := 404; json_body := None; links := [] |}.

(** A network that answers 404 to every POST. *)
Definition refusing : Env Store string :=
  make_env (tokens_for "github" github_token) (fun _ => Ok [])
    (serve []) (fun _ _ _ _ => Ok not_found).

(** The request for the team listing itself raises a [ValueError] (the
    client refuses the URL it is redirected to). *)
Definition invalid_schema : exn :=
  mk_exn ValueError "No connection adapters were found".

Definition privileges_raises : Env Store string :=
  make_env (tokens_for "bitbucket" bitbucket_token) with_account
    (fun session url =>
       match url with
       | JStr u =>
           if String.eqb u privileges_url then Err invalid_schema
           else serve [(bb_url, page (JObj [("values", JArr [])]) None)] session url
       | _ => no_response
       end)
    no_post.

End Fixture.

(** ** Vocabulary for the remaining properties *)

(** [needle] occurs in [hay]. *)
Definition contains (needle hay : string) : Prop :=
  exists before after, hay = before ++ needle ++ after.

(** [s] between two double quote characters, written out. *)
Definition quoted (s : string) : string :=
  String (ascii_of_nat 34) (s ++ String (ascii_of_nat 34) EmptyString).

(** The text ["active": true], character by character. *)
Definition active_true : string := quoted "active" ++ ": true".

(** Printable ASCII other than the double quote and the backslash: the
    characters that stand for themselves inside a JSON string. *)
Definition plain_char (c : ascii) : bool :=
  let n := nat_of_ascii c in
  andb (andb (Nat.leb 32 n) (Nat.leb n 126))
       (andb (negb (Nat.eqb n 34)) (negb (Nat.eqb n 92))).

Fixpoint plain (s : string) : bool :=
  match s with
  | EmptyString => true
  | String c rest => andb (plain_char c) (plain rest)
  end.

(** The text of the webhook registration for a production domain, written
    out: the three keys in the order of the source, [", "] and [": "] as
    separators. *)
Definition github_webhook_text (domain : string) : string :=
  "{" ++ quoted "name" ++ ": " ++ quoted "readthedocs" ++ ", "
      ++ quoted "active" ++ ": true, "
      ++ quoted "config" ++ ": {" ++ quoted "url" ++ ": "
      ++ quoted ("https://" ++ domain ++ "/github") ++ "}}".

Definition raises {A : Type} (c : exn_class) (o : outcome A) : bool :=
  match o with
  | Raise e => exn_class_eqb (exn_cls e) c
  | _ => false
  end.

(** The repositories a Bitbucket page group yields: [page['values']],
    iterated. *)
Definition page_repos (page : json) : result (list json) :=
  match py_getitem page "values" with
  | Ok values => py_iter values
  | Err e => Err e
  end.

Definition is_bitbucket (a : SocialAccount) : bool :=
  String.eqb (provider a) BitbucketProvider_id.

Definition unbound_social_account : exn :=
  mk_exn UnboundLocalError
    "local variable 'social_account' referenced before assignment".


Definition add_log {DB : Type} (level msg : string) (w : World DB) : World DB :=
  {| db := db w; http_log := http_log w; stdout := stdout w;
     log_records := (log_records w ++ [(level, msg)])%list |}.

(** The token the local lookup holds after [users]: that of the last user
    with a stored GitHub credential, [token0] when there is none. *)
Fixpoint last_stored_token {DB Org : Type} (env : Env DB Org)
         (users : list User) (token0 : json) : json :=
  match users with
  | [] => token0
  | user :: rest =>
      match SocialToken_filter env (username user) GitHubProvider_id with
      | Ok (t :: _) => last_stored_token env rest (JStr (token t))
      | _ => last_stored_token env rest token0
      end
  end.

(** The credential queries answer for every user of the list. *)
Fixpoint all_answer {DB Org : Type} (env : Env DB Org) (users : list User)
  : Prop :=
  match users with
  | [] => True
  | user :: rest =>
      (exists rows,
          SocialToken_filter env (username user) GitHubProvider_id = Ok rows) /\
      all_answer env rest
  end.

Definition token_lookup_failure : string := "Failed to get token for user".

(** * Properties *)

(** ** Running the monad *)

Lemma bind_Ret {DB A B} (m : M DB A) (k : A -> M DB B) w w' a :
  m w = (w', Ret a) -> bind m k w = k a w'.
Proof. intros H. unfold bind. rewrite H. reflexivity. Qed.

Lemma bind_Raise {DB A B} (m : M DB A) (k : A -> M DB B) w w' e :
  m w = (w', Raise e) -> bind m k w = (w', Raise e).
Proof. intros H. unfold bind. rewrite H. reflexivity. Qed.

Lemma bind_OutOfFuel {DB A B} (m : M DB A) (k : A -> M DB B) w w' :
  m w = (w', OutOfFuel) -> bind m k w = (w', OutOfFuel).
Proof. intros H. unfold bind. rewrite H. reflexivity. Qed.

Lemma try_except_Ret {DB A} (body : M DB A) classes handler w w' a :
  body w = (w', Ret a) -> try_except body classes handler w = (w', Ret a).
Proof. intros H. unfold try_except. rewrite H. reflexivity. Qed.

Lemma try_except_caught {DB A} (body : M DB A) classes handler w w' e :
  body w = (w', Raise e) -> caught_by classes e = true ->
  try_except body classes handler w = handler e w'.
Proof. intros H Hc. unfold try_except. rewrite H, Hc. reflexivity. Qed.


Lemma add_requests_nil {DB} (w : World DB) : add_requests [] w = w.
Proof. destruct w; unfold add_requests; simpl. rewrite app_nil_r. reflexivity. Qed.

Lemma add_requests_cons {DB} q qs (w : World DB) :
  add_requests qs (record_request q w) = add_requests (q :: qs) w.
Proof.
  unfold add_requests, record_request; simpl.
  rewrite <- app_assoc. reflexivity.
Qed.

Lemma append_assoc (s1 s2 s3 : string) : (s1 ++ s2) ++ s3 = s1 ++ s2 ++ s3.
Proof. induction s1 as [|c s1 IH]; simpl; [reflexivity|rewrite IH; reflexivity]. Qed.

Lemma str_truthy_true s : str_truthy s = true <-> s <> EmptyString.
Proof. destruct s; simpl; split; congruence. Qed.

(** ** The paginators *)

Section Paginators.

Context {DB Org : Type} (env : Env DB Org).

Lemma github_loop_live fuel session url result :
  github_paginate_loop env fuel session url result
  = match live url with
    | None => ret result
    | Some u =>
        match fuel with
        | O => out_of_fuel
        | S fuel' =>
            r <- session_get env session (JStr u) ;;
            page <- response_json r ;;
            items <- lift (py_iter page) ;;
            github_paginate_loop env fuel' session (github_next r) (result ++ items)%list
        end
    end.
Proof.
  destruct url as [u|]; destruct fuel; simpl; try reflexivity;
    destruct (str_truthy u); reflexivity.
Qed.

Lemma github_loop_step fuel session u result w r page items :
  str_truthy u = true ->
  http_get env session (JStr u) = Ok r ->
  json_body r = Some page ->
  py_iter page = Ok items ->
  github_paginate_loop env (S fuel) session (Some u) result w
  = github_paginate_loop env fuel session (github_next r) (result ++ items)%list
      (record_request (GET session (JStr u)) w).
Proof.
  intros Hu Hget Hbody Hiter. simpl. rewrite Hu.
  unfold bind, session_get, response_json. rewrite Hget, Hbody. simpl.
  rewrite Hiter. reflexivity.
Qed.

Lemma github_loop_stop fuel session url result w :
  live url = None ->
  github_paginate_loop env fuel session url result w = (w, Ret result).
Proof. intros H. rewrite github_loop_live, H. reflexivity. Qed.

Lemma live_Some url u : live url = Some u -> url = Some u /\ str_truthy u = true.
Proof.
  destruct url as [v|]; simpl; [|discriminate].
  destruct (str_truthy v) eqn:E; [|discriminate].
  intros H; inversion H; subst. auto.
Qed.

(** Along a finite chain the loop fetches every page once, in order, and
    returns the accumulated items. *)
Lemma github_loop_chain session url pages :
  github_chain env session url pages ->
  forall fuel result w,
    length pages <= fuel ->
    github_paginate_loop env fuel session (Some url) result w
    = (add_requests (gets session (map (fun p => JStr (fst p)) pages)) w,
       Ret (result ++ concat (map snd pages))%list).
Proof.
  induction 1 as [url r page items Hu Hget Hbody Hiter Hnext
                 |url r page items url' rest Hu Hget Hbody Hiter Hnext Hrest IH];
    intros fuel result w Hfuel; simpl in Hfuel.
  - destruct fuel as [|fuel]; [lia|].
    rewrite (github_loop_step _ _ _ _ _ _ _ _ Hu Hget Hbody Hiter).
    rewrite github_loop_stop by assumption.
    simpl. rewrite app_nil_r. reflexivity.
  - destruct fuel as [|fuel]; [lia|].
    rewrite (github_loop_step _ _ _ _ _ _ _ _ Hu Hget Hbody Hiter).
    destruct (live_Some _ _ Hnext) as [-> _].
    rewrite IH by lia. simpl.
    rewrite add_requests_cons, <- app_assoc. reflexivity.
Qed.

(** A run that returns has walked a finite chain. *)
Lemma github_loop_returns session :
  forall fuel url result w w' res,
    github_paginate_loop env fuel session url result w = (w', Ret res) ->
    (live url = None /\ w' = w /\ res = result) \/
    (exists u pages,
        live url = Some u /\ github_chain env session u pages /\
        length pages <= fuel /\
        w' = add_requests (gets session (map (fun p => JStr (fst p)) pages)) w /\
        res = (result ++ concat (map snd pages))%list).
Proof.
  induction fuel as [|fuel IH]; intros url result w w' res Hrun;
    rewrite github_loop_live in Hrun;
    destruct (live url) as [u|] eqn:Hlive.
  - discriminate.
  - inversion Hrun; subst. left. auto.
  - right. destruct (live_Some _ _ Hlive) as [_ Hu].
    unfold bind, session_get, response_json in Hrun.
    destruct (http_get env session (JStr u)) as [r|e] eqn:Hget; [|discriminate].
    destruct (json_body r) as [page|] eqn:Hbody; [|discriminate].
    simpl in Hrun.
    destruct (py_iter page) as [items|e] eqn:Hiter; [|discriminate].
    simpl in Hrun.
    destruct (IH _ _ _ _ _ Hrun)
      as [(Hstop & -> & ->)|(u' & pages & Hnext & Hchain & Hlen & -> & ->)].
    + exists u, [(u, items)]. repeat split.
      * eapply github_chain_last; eassumption.
      * simpl; lia.
      * simpl. rewrite app_nil_r. reflexivity.
    + exists u, ((u, items) :: pages). repeat split.
      * eapply github_chain_next; eassumption.
      * simpl; lia.
      * simpl. rewrite add_requests_cons. reflexivity.
      * simpl. rewrite <- app_assoc. reflexivity.
  - inversion Hrun; subst. left. auto.
Qed.

(** On an endless chain the loop uses up any fuel, one fetch per unit. *)
Lemma github_loop_endless session u :
  github_endless env session u ->
  forall fuel i result w,
    exists w',
      github_paginate_loop env fuel session (Some (u i)) result w = (w', OutOfFuel) /\
      db w' = db w /\
      length (http_log w') = length (http_log w) + fuel.
Proof.
  intros Hend. induction fuel as [|fuel IH]; intros i result w;
    destruct (Hend i) as (r & page & items & Hu & Hget & Hbody & Hiter & Hnext).
  - exists w. simpl. rewrite Hu. repeat split. lia.
  - rewrite (github_loop_step _ _ _ _ _ _ _ _ Hu Hget Hbody Hiter), Hnext.
    destruct (IH (S i) (result ++ items)%list (record_request (GET session (JStr (u i))) w))
      as (w' & Hrun & Hdb & Hlog).
    exists w'. split; [exact Hrun|]. split; [rewrite Hdb; reflexivity|].
    rewrite Hlog. simpl. rewrite length_app. simpl. lia.
Qed.

Lemma bitbucket_loop_step fuel session url result w r page next_url :
  truthy url = true ->
  http_get env session url = Ok r ->
  json_body r = Some page ->
  py_get page "next" = Ok next_url ->
  bitbucket_paginate_loop env (S fuel) session url result w
  = bitbucket_paginate_loop env fuel session
      (if truthy next_url then next_url else JNull) (result ++ [page])%list
      (record_request (GET session url) w).
Proof.
  intros Hu Hget Hbody Hnext. simpl. rewrite Hu.
  unfold bind, session_get, response_json. rewrite Hget, Hbody. simpl.
  rewrite Hnext. reflexivity.
Qed.

Lemma bitbucket_loop_stop fuel session url result w :
  truthy url = false ->
  bitbucket_paginate_loop env fuel session url result w = (w, Ret result).
Proof. intros H. destruct fuel; simpl; rewrite H; reflexivity. Qed.

Lemma bitbucket_loop_chain session url pages :
  bitbucket_chain env session url pages ->
  forall fuel result w,
    length pages <= fuel ->
    bitbucket_paginate_loop env fuel session url result w
    = (add_requests (gets session (map fst pages)) w,
       Ret (result ++ map snd pages)%list).
Proof.
  induction 1 as [url r page nxt Hu Hget Hbody Hnext Hstop
                 |url r page nxt rest Hu Hget Hbody Hnext Hgo Hrest IH];
    intros fuel result w Hfuel; simpl in Hfuel;
    (destruct fuel as [|fuel]; [lia|]);
    rewrite (bitbucket_loop_step _ _ _ _ _ _ _ _ Hu Hget Hbody Hnext).
  - rewrite Hstop, bitbucket_loop_stop by reflexivity. reflexivity.
  - rewrite Hgo, IH by lia. simpl.
    rewrite add_requests_cons, <- app_assoc. reflexivity.
Qed.

Lemma bitbucket_loop_returns session :
  forall fuel url result w w' res,
    bitbucket_paginate_loop env fuel session url result w = (w', Ret res) ->
    (truthy url = false /\ w' = w /\ res = result) \/
    (exists pages,
        truthy url = true /\ bitbucket_chain env session url pages /\
        length pages <= fuel /\
        w' = add_requests (gets session (map fst pages)) w /\
        res = (result ++ map snd pages)%list).
Proof.
  induction fuel as [|fuel IH]; intros url result w w' res Hrun;
    simpl in Hrun; destruct (truthy url) eqn:Hu.
  - discriminate.
  - inversion Hrun; subst. left. auto.
  - right.
    unfold bind, session_get, response_json in Hrun.
    destruct (http_get env session url) as [r|e] eqn:Hget; [|discriminate].
    destruct (json_body r) as [page|] eqn:Hbody; [|discriminate].
    simpl in Hrun.
    destruct (py_get page "next") as [nxt|e] eqn:Hnext; [|discriminate].
    simpl in Hrun.
    destruct (IH _ _ _ _ _ Hrun)
      as [(Hstop & -> & ->)|(pages & Hgo & Hchain & Hlen & -> & ->)].
    + exists [(url, page)]. repeat split.
      * eapply bitbucket_chain_last; try eassumption.
        destruct (truthy nxt) eqn:Hn; [simpl in Hstop; congruence|reflexivity].
      * simpl; lia.
    + destruct (truthy nxt) eqn:Hn; [|simpl in Hgo; discriminate].
      exists ((url, page) :: pages). repeat split.
      * eapply bitbucket_chain_next; eassumption.
      * simpl; lia.
      * simpl. rewrite add_requests_cons. reflexivity.
      * simpl. rewrite <- app_assoc. reflexivity.
  - inversion Hrun; subst. left. auto.
Qed.

Lemma bitbucket_loop_endless session u :
  bitbucket_endless env session u ->
  forall fuel i result w,
    exists w',
      bitbucket_paginate_loop env fuel session (u i) result w = (w', OutOfFuel) /\
      db w' = db w /\
      length (http_log w') = length (http_log w) + fuel.
Proof.
  intros Hend. induction fuel as [|fuel IH]; intros i result w;
    destruct (Hend i) as (r & page & Hu & Hget & Hbody & Hnext).
  - exists w. simpl. rewrite Hu. repeat split. lia.
  - rewrite (bitbucket_loop_step _ _ _ _ _ _ _ _ Hu Hget Hbody Hnext).
    destruct (Hend (S i)) as (_ & _ & Hu' & _). rewrite Hu'.
    destruct (IH (S i) (result ++ [page])%list (record_request (GET session (u i)) w))
      as (w' & Hrun & Hdb & Hlog).
    exists w'. split; [exact Hrun|]. split; [rewrite Hdb; reflexivity|].
    rewrite Hlog. simpl. rewrite length_app. simpl. lia.
Qed.

End Paginators.

Section LinkedPages.

Context {DB Org : Type} (env : Env DB Org).

Lemma github_pages_chain session url pages :
  github_pages env session url pages ->
  exists chain,
    github_chain env session url chain /\ map snd chain = pages.
Proof.
  induction 1 as [url r items Hu Hget Hbody Hlast
                 |url r items link url' rest Hu Hget Hbody Hlink Hurl Hrest IH].
  - exists [(url, items)]. split; [|reflexivity].
    eapply github_chain_last; try eassumption.
    + apply str_truthy_true, Hu.
    + reflexivity.
    + unfold github_next. rewrite Hlast. reflexivity.
  - destruct IH as (chain & Hchain & Hmap).
    exists ((url, items) :: chain). split; [|simpl; congruence].
    eapply github_chain_next; try eassumption.
    + apply str_truthy_true, Hu.
    + reflexivity.
    + unfold github_next. rewrite Hlink.
      destruct link as [|kv link']; [discriminate|].
      rewrite Hurl. simpl.
      assert (Hu' : str_truthy url' = true)
        by (inversion Hrest; subst; apply str_truthy_true; assumption).
      rewrite Hu'. reflexivity.
Qed.

Lemma bitbucket_pages_chain session url pages :
  bitbucket_pages env session url pages ->
  exists chain,
    bitbucket_chain env session (JStr url) chain /\ map snd chain = pages.
Proof.
  induction 1 as [url r fields Hu Hget Hbody Hlast
                 |url r fields url' rest Hu Hget Hbody Hnext Hrest IH].
  - exists [(JStr url, JObj fields)]. split; [|reflexivity].
    eapply bitbucket_chain_last; try eassumption.
    + apply str_truthy_true, Hu.
    + simpl. rewrite Hlast. reflexivity.
    + reflexivity.
  - destruct IH as (chain & Hchain & Hmap).
    exists ((JStr url, JObj fields) :: chain). split; [|simpl; congruence].
    eapply bitbucket_chain_next; try eassumption.
    + apply str_truthy_true, Hu.
    + simpl. rewrite Hnext. reflexivity.
    + inversion Hrest; subst; apply str_truthy_true; assumption.
Qed.

Lemma length_add_requests qs (w : World DB) :
  length (http_log (add_requests qs w)) = length (http_log w) + length qs.
Proof. unfold add_requests; simpl. apply length_app. Qed.

(** C6. For every sequence of pages linked through the [next] relation of
    the [Link] header, [github_paginate] returns the concatenation of the
    pages' JSON arrays as one flat sequence, after one GET per page; its
    length is the sum of the page sizes (201 for pages of 100, 100 and 1
    items). *)
Theorem github_paginate_concatenates_pages session url pages fuel w :
  github_pages env session url pages ->
  length pages <= fuel ->
  exists w',
    github_paginate env fuel session url w = (w', Ret (concat pages)) /\
    length (concat pages) = list_sum (map (@length json) pages) /\
    db w' = db w /\
    length (http_log w') = length (http_log w) + length pages.
Proof.
  intros Hpages Hfuel.
  destruct (github_pages_chain _ _ _ Hpages) as (chain & Hchain & Hmap).
  assert (Hlen : length chain = length pages)
    by (rewrite <- Hmap; symmetry; apply length_map).
  eexists. split; [|split; [apply length_concat|split]].
  - unfold github_paginate.
    rewrite (github_loop_chain env _ _ _ Hchain) by lia.
    rewrite Hmap. reflexivity.
  - reflexivity.
  - rewrite length_add_requests. unfold gets.
    rewrite !length_map. lia.
Qed.

(** C7. For every sequence of pages linked through the [next] URL of the
    JSON body, [bitbucket_paginate] returns one element per fetched page,
    each being the raw page object, after one GET per page. *)
Theorem bitbucket_paginate_returns_page_objects session url pages fuel w :
  bitbucket_pages env session url pages ->
  length pages <= fuel ->
  exists w',
    bitbucket_paginate env fuel session url w = (w', Ret pages) /\
    db w' = db w /\
    length (http_log w') = length (http_log w) + length pages.
Proof.
  intros Hpages Hfuel.
  destruct (bitbucket_pages_chain _ _ _ Hpages) as (chain & Hchain & Hmap).
  assert (Hlen : length chain = length pages)
    by (rewrite <- Hmap; symmetry; apply length_map).
  eexists. split; [|split].
  - unfold bitbucket_paginate.
    rewrite (bitbucket_loop_chain env _ _ _ Hchain) by lia.
    rewrite Hmap. reflexivity.
  - reflexivity.
  - rewrite length_add_requests. unfold gets.
    rewrite !length_map. lia.
Qed.

End LinkedPages.

Lemma github_paginate_concatenates_pages_witness :
  github_pages Fixture.three_pages Fixture.github_session Fixture.repos_url
    [Fixture.hundred; Fixture.hundred; Fixture.last_one] /\
  exists w',
    github_paginate Fixture.three_pages 3 Fixture.github_session
      Fixture.repos_url Fixture.world0
    = (w', Ret (Fixture.hundred ++ Fixture.hundred ++ Fixture.last_one ++ [])%list) /\
    length (Fixture.hundred ++ Fixture.hundred ++ Fixture.last_one ++ [])%list = 201 /\
    length (http_log w') = 3.
Proof.
  assert (H : github_pages Fixture.three_pages Fixture.github_session
                Fixture.repos_url
                [Fixture.hundred; Fixture.hundred; Fixture.last_one]).
  { eapply github_pages_next;
      [discriminate|reflexivity|reflexivity|reflexivity|reflexivity|].
    eapply github_pages_next;
      [discriminate|reflexivity|reflexivity|reflexivity|reflexivity|].
    eapply github_pages_last;
      [discriminate|reflexivity|reflexivity|reflexivity]. }
  split; [exact H|].
  destruct (github_paginate_concatenates_pages Fixture.three_pages
              Fixture.github_session Fixture.repos_url _ 3 Fixture.world0 H
              (le_n 3))
    as (w' & Hrun & Hlen & _ & Hlog).
  exists w'. split; [exact Hrun|]. split; [exact Hlen|exact Hlog].
Defined.

Lemma bitbucket_paginate_returns_page_objects_witness :
  bitbucket_pages Fixture.two_pages Fixture.bitbucket_session Fixture.bb_url
    [Fixture.bb_page1; Fixture.bb_page2] /\
  exists w',
    bitbucket_paginate Fixture.two_pages 2 Fixture.bitbucket_session
      Fixture.bb_url Fixture.world0
    = (w', Ret [Fixture.bb_page1; Fixture.bb_page2]) /\
    length (http_log w') = 2.
Proof.
  assert (H : bitbucket_pages Fixture.two_pages Fixture.bitbucket_session
                Fixture.bb_url [Fixture.bb_page1; Fixture.bb_page2]).
  { eapply bitbucket_pages_next;
      [discriminate|reflexivity|reflexivity|reflexivity|].
    eapply bitbucket_pages_last;
      [discriminate|reflexivity|reflexivity|reflexivity]. }
  split; [exact H|].
  destruct (bitbucket_paginate_returns_page_objects Fixture.two_pages
              Fixture.bitbucket_session Fixture.bb_url _ 2 Fixture.world0 H
              (le_n 2))
    as (w' & Hrun & _ & Hlog).
  exists w'. split; [exact Hrun|exact Hlog].
Defined.

Section Unbounded.

Context {DB Org : Type} (env : Env DB Org).

Lemma length_pad k url : String.length (pad k url) = k + String.length url.
Proof. induction k; simpl; congruence. Qed.

Lemma pad_truthy k url : url <> EmptyString -> str_truthy (pad k url) = true.
Proof. intros H. destruct k; simpl; [apply str_truthy_true, H|reflexivity]. Qed.

Lemma long_github_chain session url n :
  url <> EmptyString ->
  forall d k, k + d = n ->
    exists chain,
      github_chain (with_http_get (long_github n url) env) session (pad k url) chain /\
      length chain = S d.
Proof.
  intros Hu. induction d as [|d IH]; intros k Hk.
  - exists [(pad k url, [])]. split; [|reflexivity].
    eapply github_chain_last; try reflexivity.
    + apply pad_truthy, Hu.
    + unfold github_next; simpl. rewrite length_pad.
      replace (k + String.length url - String.length url) with k by lia.
      replace (Nat.ltb k n) with false by (symmetry; apply Nat.ltb_ge; lia).
      reflexivity.
  - destruct (IH (S k)) as (chain & Hchain & Hlen); [lia|].
    exists ((pad k url, []) :: chain). split; [|simpl; congruence].
    eapply github_chain_next; try reflexivity; [apply pad_truthy, Hu| |exact Hchain].
    unfold github_next; simpl. rewrite length_pad.
    replace (k + String.length url - String.length url) with k by lia.
    replace (Nat.ltb k n) with true by (symmetry; apply Nat.ltb_lt; lia).
    reflexivity.
Qed.

Lemma long_bitbucket_chain session url n :
  url <> EmptyString ->
  forall d k, k + d = n ->
    exists chain,
      bitbucket_chain (with_http_get (long_bitbucket n url) env) session
        (JStr (pad k url)) chain /\
      length chain = S d.
Proof.
  intros Hu. induction d as [|d IH]; intros k Hk.
  - eexists [(JStr (pad k url), _)]. split; [|reflexivity].
    eapply bitbucket_chain_last; try reflexivity.
    + apply pad_truthy, Hu.
    + rewrite length_pad.
      replace (k + String.length url - String.length url) with k by lia.
      replace (Nat.ltb k n) with false by (symmetry; apply Nat.ltb_ge; lia).
      reflexivity.
  - destruct (IH (S k)) as (chain & Hchain & Hlen); [lia|].
    eexists ((JStr (pad k url), _) :: chain). split; [|simpl; congruence].
    eapply bitbucket_chain_next with (next_url := JStr (pad (S k) url));
      try reflexivity; [apply pad_truthy, Hu| |exact Hchain].
    simpl. rewrite length_pad.
    replace (k + String.length url - String.length url) with k by lia.
    replace (Nat.ltb k n) with true by (symmetry; apply Nat.ltb_lt; lia).
    reflexivity.
Qed.

(** C9. Both paginators loop while a next URL is produced, with one GET
    per iteration and no cap on the number of pages: each returns exactly
    when the chain of next links that starts at its URL is finite (an empty
    start URL is the degenerate chain without any fetch); along a chain it
    fetches every page once, however long the chain; on an endless chain it
    never returns and makes one fetch per unit of fuel. *)
Theorem paginators_return_iff_chain_is_finite session url w :
  (* github_paginate *)
  ((exists fuel w' res, github_paginate env fuel session url w = (w', Ret res))
   <-> (url = EmptyString \/ exists chain, github_chain env session url chain)) /\
  (forall chain fuel,
      github_chain env session url chain -> length chain <= fuel ->
      fst (github_paginate env fuel session url w)
      = add_requests (gets session (map (fun p => JStr (fst p)) chain)) w) /\
  (forall u fuel,
      u 0 = url -> github_endless env session u ->
      snd (github_paginate env fuel session url w) = OutOfFuel /\
      length (http_log (fst (github_paginate env fuel session url w)))
      = length (http_log w) + fuel) /\
  (forall n, url <> EmptyString ->
      exists chain,
        github_chain (with_http_get (long_github n url) env) session url chain /\
        length chain = S n) /\
  (* bitbucket_paginate *)
  ((exists fuel w' res, bitbucket_paginate env fuel session url w = (w', Ret res))
   <-> (url = EmptyString \/ exists chain, bitbucket_chain env session (JStr url) chain)) /\
  (forall chain fuel,
      bitbucket_chain env session (JStr url) chain -> length chain <= fuel ->
      fst (bitbucket_paginate env fuel session url w)
      = add_requests (gets session (map fst chain)) w) /\
  (forall u fuel,
      u 0 = JStr url -> bitbucket_endless env session u ->
      snd (bitbucket_paginate env fuel session url w) = OutOfFuel /\
      length (http_log (fst (bitbucket_paginate env fuel session url w)))
      = length (http_log w) + fuel) /\
  (forall n, url <> EmptyString ->
      exists chain,
        bitbucket_chain (with_http_get (long_bitbucket n url) env) session
          (JStr url) chain /\
        length chain = S n).
Proof.
  repeat match goal with |- _ /\ _ => split end.
  - split.
    + intros (fuel & w' & res & Hrun). unfold github_paginate in Hrun.
      destruct (github_loop_returns env _ _ _ _ _ _ _ Hrun)
        as [(Hstop & _)|(u & chain & Hlive & Hchain & _)].
      * left. simpl in Hstop. destruct url; [reflexivity|discriminate].
      * right. destruct (live_Some _ _ Hlive) as [Hu _].
        inversion Hu; subst. exists chain. exact Hchain.
    + intros [->|(chain & Hchain)].
      * exists 0, w, []. reflexivity.
      * exists (length chain). do 2 eexists. unfold github_paginate.
        rewrite (github_loop_chain env _ _ _ Hchain) by lia. reflexivity.
  - intros chain fuel Hchain Hfuel. unfold github_paginate.
    rewrite (github_loop_chain env _ _ _ Hchain) by lia. reflexivity.
  - intros u fuel Hu Hend. unfold github_paginate. rewrite <- Hu.
    destruct (github_loop_endless env _ _ Hend fuel 0 [] w) as (w' & Hrun & _ & Hlog).
    rewrite Hrun. split; [reflexivity|exact Hlog].
  - intros n Hu. exact (long_github_chain session url n Hu n 0 eq_refl).
  - split.
    + intros (fuel & w' & res & Hrun). unfold bitbucket_paginate in Hrun.
      destruct (bitbucket_loop_returns env _ _ _ _ _ _ _ Hrun)
        as [(Hstop & _)|(chain & _ & Hchain & _)].
      * left. simpl in Hstop. destruct url; [reflexivity|discriminate].
      * right. exists chain. exact Hchain.
    + intros [->|(chain & Hchain)].
      * exists 0, w, []. reflexivity.
      * exists (length chain). do 2 eexists. unfold bitbucket_paginate.
        rewrite (bitbucket_loop_chain env _ _ _ Hchain) by lia. reflexivity.
  - intros chain fuel Hchain Hfuel. unfold bitbucket_paginate.
    rewrite (bitbucket_loop_chain env _ _ _ Hchain) by lia. reflexivity.
  - intros u fuel Hu Hend. unfold bitbucket_paginate. rewrite <- Hu.
    destruct (bitbucket_loop_endless env _ _ Hend fuel 0 [] w) as (w' & Hrun & _ & Hlog).
    rewrite Hrun. split; [reflexivity|exact Hlog].
  - intros n Hu. exact (long_bitbucket_chain session url n Hu n 0 eq_refl).
Qed.

End Unbounded.

(** ** Sessions and the importers without credentials *)

Section Sessions.

Context {DB Org : Type} (env : Env DB Org).

Lemma get_oauth_session_none user p w :
  SocialToken_filter env (username user) p = Ok [] ->
  get_oauth_session env user p w = (w, Ret None).
Proof.
  intros H. unfold get_oauth_session, bind, tokens_exists, bind, lift.
  rewrite H. reflexivity.
Qed.

Lemma get_oauth_session_bitbucket user t ts w :
  SocialToken_filter env (username user) BitbucketProvider_id = Ok (t :: ts) ->
  get_oauth_session env user BitbucketProvider_id w
  = (w, Ret (Some (OAuth1Session (client_id (app t)) (secret (app t))
                                 (token t) (token_secret t)))).
Proof.
  intros H.
  unfold get_oauth_session, bind, tokens_exists, tokens_first, bind, lift.
  rewrite H. reflexivity.
Qed.

Lemma get_oauth_session_github user t ts w :
  SocialToken_filter env (username user) GitHubProvider_id = Ok (t :: ts) ->
  get_oauth_session env user GitHubProvider_id w
  = (w, Ret (Some (OAuth2Session (client_id (app t)) (token t) "bearer"))).
Proof.
  intros H.
  unfold get_oauth_session, bind, tokens_exists, tokens_first, bind, lift.
  rewrite H. reflexivity.
Qed.

(** The social-account lookup of [import_bitbucket], with its handler. *)
Lemma social_account_lookup user accounts w :
  socialaccount_set env user = Ok accounts ->
  try_except (a <- socialaccount_get env user BitbucketProvider_id ;; ret (Some a))
             [DoesNotExist] (fun _ => ret None) w
  = match filter is_bitbucket accounts with
    | [] => (w, Ret None)
    | [a] => (w, Ret (Some a))
    | _ => (w, Raise (mk_exn MultipleObjectsReturned
                        "get() returned more than one row"))
    end.
Proof.
  intros H. unfold try_except, bind, socialaccount_get, bind, lift.
  rewrite H. fold is_bitbucket. unfold ret. simpl.
  destruct (filter is_bitbucket accounts) as [|a [|b rest]]; reflexivity.
Qed.

(** C3. For a user with a Bitbucket session and no stored Bitbucket
    social-account record, [import_bitbucket] with sync enabled does not
    fail early: the missing record is passed over, and the run stops at
    the reference to the unset [social_account] while the user-repositories
    URL is built, before any HTTP call or database write.  Without sync the
    same user gets [True]. *)
Theorem import_bitbucket_reaches_unset_social_account
        fuel user session accounts w :
  get_oauth_session env user BitbucketProvider_id w = (w, Ret (Some session)) ->
  socialaccount_set env user = Ok accounts ->
  filter is_bitbucket accounts = [] ->
  import_bitbucket env fuel user true w = (w, Raise unbound_social_account) /\
  bitbucket_user_repos env fuel session user None w
  = (w, Raise unbound_social_account) /\
  import_bitbucket env fuel user false w = (w, Ret true).
Proof.
  intros Hs Ha Hnone.
  pose proof (social_account_lookup user accounts w Ha) as Hlookup.
  rewrite Hnone in Hlookup.
  repeat split.
  - unfold import_bitbucket.
    rewrite (bind_Ret _ _ _ _ _ Hs), (bind_Ret _ _ _ _ _ Hlookup).
    reflexivity.
  - unfold import_bitbucket.
    rewrite (bind_Ret _ _ _ _ _ Hs), (bind_Ret _ _ _ _ _ Hlookup).
    reflexivity.
Qed.

(** C5 (amended). For a user with no stored credential for the requested
    provider the session lookup returns [None]; [import_github] then
    returns [False] without any HTTP call, database write or exception, and
    so does [import_bitbucket] whenever its social-account lookup, which
    runs before the session is tested, finds at most one Bitbucket
    record. *)
Theorem importers_without_credential fuel user p sync w :
  SocialToken_filter env (username user) p = Ok [] ->
  get_oauth_session env user p w = (w, Ret None) /\
  (p = GitHubProvider_id -> import_github env fuel user sync w = (w, Ret false)) /\
  (p = BitbucketProvider_id ->
   forall accounts,
     socialaccount_set env user = Ok accounts ->
     length (filter is_bitbucket accounts) <= 1 ->
     import_bitbucket env fuel user sync w = (w, Ret false)).
Proof.
  intros H. pose proof (get_oauth_session_none user p w H) as Hs.
  split; [exact Hs|]. split.
  - intros ->. unfold import_github.
    rewrite (bind_Ret _ _ _ _ _ Hs). reflexivity.
  - intros -> accounts Ha Hlen.
    pose proof (social_account_lookup user accounts w Ha) as Hlookup.
    unfold import_bitbucket. rewrite (bind_Ret _ _ _ _ _ Hs).
    destruct (filter is_bitbucket accounts) as [|a [|b rest]];
      [| |simpl in Hlen; lia];
      rewrite (bind_Ret _ _ _ _ _ Hlookup); reflexivity.
Qed.

(** ** The webhook registrar *)

Lemma escape_char_plain c :
  plain_char c = true -> escape_char c = String c EmptyString.
Proof.
  unfold plain_char, escape_char. cbv zeta.
  generalize (nat_of_ascii c). intros n H.
  apply andb_prop in H. destruct H as [Hrange Hnot].
  apply andb_prop in Hnot. destruct Hnot as [H34 H92].
  apply negb_true_iff in H34, H92. rewrite H34, H92.
  pose proof Hrange as Hlow. apply andb_prop in Hlow. destruct Hlow as [Hlow _].
  apply Nat.leb_le in Hlow.
  replace (Nat.eqb n 10) with false by (symmetry; apply Nat.eqb_neq; lia).
  replace (Nat.eqb n 13) with false by (symmetry; apply Nat.eqb_neq; lia).
  replace (Nat.eqb n 9) with false by (symmetry; apply Nat.eqb_neq; lia).
  replace (Nat.eqb n 8) with false by (symmetry; apply Nat.eqb_neq; lia).
  replace (Nat.eqb n 12) with false by (symmetry; apply Nat.eqb_neq; lia).
  rewrite Hrange. reflexivity.
Qed.

Lemma escape_plain s : plain s = true -> escape s = s.
Proof.
  induction s as [|c s IH]; simpl; intros H; [reflexivity|].
  apply andb_prop in H. destruct H as [Hc Hs].
  rewrite (escape_char_plain c Hc), (IH Hs). reflexivity.
Qed.

Lemma escape_app a b : escape (a ++ b) = escape a ++ escape b.
Proof.
  induction a as [|c a IH]; simpl; [reflexivity|].
  rewrite IH, append_assoc. reflexivity.
Qed.

Lemma json_string_plain s : plain s = true -> json_string s = quoted s.
Proof.
  intros H. unfold json_string, quoted. rewrite (escape_plain s H). reflexivity.
Qed.

Lemma plain_app a b : plain a = true -> plain b = true -> plain (a ++ b) = true.
Proof.
  induction a as [|c a IH]; simpl; intros Ha Hb; [exact Hb|].
  apply andb_prop in Ha. destruct Ha as [Hc Ha].
  rewrite Hc, (IH Ha Hb). reflexivity.
Qed.

(** The dumped payload around its one variable part, the target URL. *)
Lemma github_webhook_payload_dumped :
  json_dumps (github_webhook_payload env)
  = ("{" ++ quoted "name" ++ ": " ++ quoted "readthedocs" ++ ", "
         ++ quoted "active" ++ ": true, "
         ++ quoted "config" ++ ": {" ++ quoted "url" ++ ": ")
      ++ json_string ("https://" ++ PRODUCTION_DOMAIN env ++ "/github") ++ "}}".
Proof.
  unfold github_webhook_payload.
  generalize ("https://" ++ PRODUCTION_DOMAIN env ++ "/github"). intros target.
  change (json_dumps
            (JObj [("name", JStr "readthedocs"); ("active", JBool true);
                   ("config", JObj [("url", JStr target)])]))
    with ("{" ++ (json_string "name" ++ ": " ++ json_string "readthedocs")
              ++ ", " ++ (json_string "active" ++ ": " ++ "true")
              ++ ", " ++ (json_string "config" ++ ": "
                            ++ "{" ++ (json_string "url" ++ ": " ++ json_string target)
                            ++ "}")
              ++ "}").
  generalize (json_string target). intros text.
  simpl. rewrite append_assoc. reflexivity.
Qed.

(** C8. For a project whose source URL is [git@github.com:owner/repo.git],
    parsed as owner [owner] and repository [repo], [add_github_webhook]
    issues exactly one POST, to
    [https://api.github.com/repos/owner/repo/hooks], whose body is the JSON
    text of the payload.  That text contains ["active": true], written
    out, and the target URL built from [PRODUCTION_DOMAIN]; for a domain
    of plain characters it is, character by character,
    [{"name": "readthedocs", "active": true, "config": {"url":
    "https://<PRODUCTION_DOMAIN>/github"}}]. *)
Theorem add_github_webhook_posts_once session project w :
  repo project = "git@github.com:owner/repo.git" ->
  get_github_username_repo env (repo project) = (Some "owner", Some "repo") ->
  exists body,
    http_log (fst (add_github_webhook env session project w))
    = (http_log w
         ++ [POST session "https://api.github.com/repos/owner/repo/hooks" body
                  [("content-type", "application/json")]])%list /\
    db (fst (add_github_webhook env session project w)) = db w /\
    body = json_dumps
             (JObj [("name", JStr "readthedocs");
                    ("active", JBool true);
                    ("config",
                     JObj [("url",
                            JStr ("https://" ++ PRODUCTION_DOMAIN env ++ "/github"))])]) /\
    contains active_true body /\
    contains (json_string ("https://" ++ PRODUCTION_DOMAIN env ++ "/github")) body /\
    (plain (PRODUCTION_DOMAIN env) = true ->
     body = github_webhook_text (PRODUCTION_DOMAIN env) /\
     contains (quoted ("https://" ++ PRODUCTION_DOMAIN env ++ "/github")) body).
Proof.
  intros Hrepo Hparse.
  exists (json_dumps (github_webhook_payload env)).
  unfold add_github_webhook. rewrite Hparse.
  unfold bind, session_post.
  split; [destruct (http_post env session _ _ _); reflexivity|].
  split; [destruct (http_post env session _ _ _); reflexivity|].
  split; [reflexivity|].
  rewrite github_webhook_payload_dumped.
  split; [|split].
  - generalize (json_string ("https://" ++ PRODUCTION_DOMAIN env ++ "/github")).
    intros text.
    exists ("{" ++ quoted "name" ++ ": " ++ quoted "readthedocs" ++ ", ").
    exists (", " ++ quoted "config" ++ ": {" ++ quoted "url" ++ ": " ++ text ++ "}}").
    reflexivity.
  - eexists. exists "}}". reflexivity.
  - intros Hplain.
    assert (Htarget : json_string ("https://" ++ PRODUCTION_DOMAIN env ++ "/github")
                      = quoted ("https://" ++ PRODUCTION_DOMAIN env ++ "/github")).
    { apply json_string_plain.
      apply plain_app; [reflexivity|].
      apply plain_app; [exact Hplain|reflexivity]. }
    rewrite Htarget. unfold github_webhook_text.
    generalize (quoted ("https://" ++ PRODUCTION_DOMAIN env ++ "/github")).
    intros text. split.
    + reflexivity.
    + eexists. exists "}}". reflexivity.
Qed.

End Sessions.

Lemma import_bitbucket_reaches_unset_social_account_witness :
  get_oauth_session Fixture.no_account Fixture.alice BitbucketProvider_id
    Fixture.world0
  = (Fixture.world0, Ret (Some Fixture.bitbucket_session)) /\
  import_bitbucket Fixture.no_account 1 Fixture.alice true Fixture.world0
  = (Fixture.world0, Raise unbound_social_account).
Proof.
  split; [reflexivity|].
  apply (import_bitbucket_reaches_unset_social_account Fixture.no_account 1
           Fixture.alice Fixture.bitbucket_session
           [{| provider := "github"; uid := "alice" |}] Fixture.world0);
    reflexivity.
Defined.

(** C5, as stated, fails: a user without credentials who has connected two
    Bitbucket accounts makes [import_bitbucket] raise, with or without
    sync, although the session lookup returned [None]. *)
Lemma import_bitbucket_without_credential_raises :
  SocialToken_filter Fixture.two_accounts (username Fixture.alice)
    BitbucketProvider_id = Ok [] /\
  get_oauth_session Fixture.two_accounts Fixture.alice BitbucketProvider_id
    Fixture.world0 = (Fixture.world0, Ret None) /\
  import_bitbucket Fixture.two_accounts 1 Fixture.alice false Fixture.world0
  = (Fixture.world0,
     Raise (mk_exn MultipleObjectsReturned "get() returned more than one row")) /\
  import_bitbucket Fixture.two_accounts 1 Fixture.alice true Fixture.world0
  = (Fixture.world0,
     Raise (mk_exn MultipleObjectsReturned "get() returned more than one row")).
Proof. repeat split; reflexivity. Qed.

Lemma importers_without_credential_witness :
  SocialToken_filter Fixture.no_credential (username Fixture.alice)
    BitbucketProvider_id = Ok [] /\
  import_bitbucket Fixture.no_credential 1 Fixture.alice true Fixture.world0
  = (Fixture.world0, Ret false).
Proof.
  split; [reflexivity|].
  apply (proj2 (proj2 (importers_without_credential Fixture.no_credential 1
                         Fixture.alice BitbucketProvider_id true
                         Fixture.world0 eq_refl))
           eq_refl [{| provider := "bitbucket"; uid := "alice" |}] eq_refl).
  simpl. lia.
Defined.

Lemma add_github_webhook_posts_once_witness :
  get_github_username_repo Fixture.hooks (repo Fixture.docs_project)
  = (Some "owner", Some "repo") /\
  plain (PRODUCTION_DOMAIN Fixture.hooks) = true /\
  http_log (fst (add_github_webhook Fixture.hooks Fixture.github_session
                   Fixture.docs_project Fixture.world0))
  = [POST Fixture.github_session
          "https://api.github.com/repos/owner/repo/hooks"
          ("{" ++ quoted "name" ++ ": " ++ quoted "readthedocs" ++ ", "
               ++ quoted "active" ++ ": true, "
               ++ quoted "config" ++ ": {" ++ quoted "url" ++ ": "
               ++ quoted "https://readthedocs.org/github" ++ "}}")
          [("content-type", "application/json")]] /\
  contains active_true
    ("{" ++ quoted "name" ++ ": " ++ quoted "readthedocs" ++ ", "
         ++ quoted "active" ++ ": true, "
         ++ quoted "config" ++ ": {" ++ quoted "url" ++ ": "
         ++ quoted "https://readthedocs.org/github" ++ "}}").
Proof.
  split; [reflexivity|]. split; [reflexivity|].
  destruct (add_github_webhook_posts_once Fixture.hooks Fixture.github_session
              Fixture.docs_project Fixture.world0 eq_refl eq_refl)
    as (body & Hlog & _ & _ & Hactive & _ & Htext).
  destruct (Htext eq_refl) as [Hbody _].
  rewrite Hbody in Hlog, Hactive.
  split; [exact Hlog|exact Hactive].
Defined.

(** ** Processing Bitbucket pages *)

Section BitbucketPages.

Context {DB Org : Type} (env : Env DB Org).

Lemma for_each_app {A} (l1 l2 : list A) (body : A -> M DB unit) w :
  for_each (l1 ++ l2) body w = (for_each l1 body ;;; for_each l2 body) w.
Proof.
  revert w. induction l1 as [|x l1 IH]; intros w; simpl.
  - reflexivity.
  - unfold bind in *. destruct (body x w) as [w' [[]|e|]]; try reflexivity.
    apply IH.
Qed.

Lemma for_each_stops {A} (l1 l2 : list A) (x : A) (body : A -> M DB unit)
      w w1 w2 e :
  for_each l1 body w = (w1, Ret tt) ->
  for_each [x] body w1 = (w2, Raise e) ->
  for_each (l1 ++ x :: l2) body w = (w2, Raise e).
Proof.
  intros H1 H2. rewrite for_each_app. rewrite (bind_Ret _ _ _ _ _ H1).
  simpl in *. unfold bind, ret in *.
  destruct (body x w1) as [w' [[]|e'|]]; simpl in *; congruence.
Qed.

Lemma caught_by_TypeError e :
  caught_by [TypeError] e = exn_class_eqb (exn_cls e) TypeError.
Proof. unfold caught_by; simpl. apply orb_false_r. Qed.


(** No [TypeError] leaves [process_bitbucket_json]. *)
Lemma process_bitbucket_json_no_TypeError user pages w :
  raises TypeError (snd (process_bitbucket_json env user pages w)) = false.
Proof.
  unfold process_bitbucket_json, try_except.
  destruct (process_pages env user pages w) as [w' [[]|e|]]; try reflexivity.
  rewrite caught_by_TypeError.
  destruct (exn_class_eqb (exn_cls e) TypeError) eqn:E; [reflexivity|exact E].
Qed.



End BitbucketPages.


(** ** The failure policy of import_bitbucket *)

Section BitbucketPolicy.

Context {DB Org : Type} (env : Env DB Org).

Lemma caught_by_Type_or_Value e :
  exn_cls e = TypeError \/ exn_cls e = ValueError ->
  caught_by [TypeError; ValueError] e = true.
Proof. unfold caught_by; simpl. intros [-> | ->]; reflexivity. Qed.

Lemma caught_by_Value e :
  exn_cls e = ValueError -> caught_by [ValueError] e = true.
Proof. unfold caught_by; simpl. intros ->. reflexivity. Qed.

(** C1 (amended). In [import_bitbucket] a [TypeError] or [ValueError]
    that leaves the [try] block of the user-repository phase (pagination
    included) is caught and raised again as a reconnect-your-account error,
    and a [ValueError] that leaves the [try] block of the team-repository
    phase, which is entered once the privileges request has answered, is
    caught and raised again as such an error with another message; a
    [TypeError] raised while the pages are processed never gets that far in
    either phase, since [process_bitbucket_json] catches it. *)
Theorem import_bitbucket_reconnect_policy fuel user session accounts account w :
  get_oauth_session env user BitbucketProvider_id w = (w, Ret (Some session)) ->
  socialaccount_set env user = Ok accounts ->
  filter is_bitbucket accounts = [account] ->
  (forall w1 e,
      bitbucket_user_repos env fuel session user (Some account) w = (w1, Raise e) ->
      exn_cls e = TypeError \/ exn_cls e = ValueError ->
      import_bitbucket env fuel user true w = (w1, Raise bitbucket_repos_error)) /\
  (forall w1 resp w2 e,
      bitbucket_user_repos env fuel session user (Some account) w = (w1, Ret tt) ->
      http_get env session (JStr "https://bitbucket.org/api/1.0/user/privileges/")
      = Ok resp ->
      bitbucket_team_repos env fuel session user resp
        (record_request
           (GET session (JStr "https://bitbucket.org/api/1.0/user/privileges/")) w1)
      = (w2, Raise e) ->
      exn_cls e = ValueError ->
      import_bitbucket env fuel user true w = (w2, Raise bitbucket_teams_error)) /\
  bitbucket_repos_error <> bitbucket_teams_error /\
  (forall pages w0,
      raises TypeError (snd (process_bitbucket_json env user pages w0)) = false).
Proof.
  intros Hs Ha Hone.
  pose proof (social_account_lookup env user accounts w Ha) as Hlookup.
  rewrite Hone in Hlookup.
  repeat split.
  - intros w1 e Hrun Hcls. unfold import_bitbucket.
    rewrite (bind_Ret _ _ _ _ _ Hs), (bind_Ret _ _ _ _ _ Hlookup).
    unfold bind at 1. unfold bind at 1.
    rewrite (try_except_caught _ _ _ _ _ _ Hrun (caught_by_Type_or_Value e Hcls)).
    reflexivity.
  - intros w1 resp w2 e Hrun Hget Hteam Hcls. unfold import_bitbucket.
    rewrite (bind_Ret _ _ _ _ _ Hs), (bind_Ret _ _ _ _ _ Hlookup).
    unfold bind at 1. unfold bind at 1.
    rewrite (try_except_Ret _ _ _ _ _ _ Hrun).
    unfold bind at 1. unfold session_get at 1. rewrite Hget.
    rewrite (try_except_caught _ _ _ _ _ _ Hteam (caught_by_Value e Hcls)).
    reflexivity.
  - discriminate.
  - intros. apply process_bitbucket_json_no_TypeError.
Qed.

End BitbucketPolicy.

(** C1, as stated, fails.  In the user-repository phase a page whose
    [values] are [null] raises a [TypeError] that the page helper
    swallows: the import goes on and returns [True].  In the team phase a
    team listing that is a JSON array raises a [TypeError] that
    [except ValueError] lets through unchanged, and a [ValueError] raised
    by the privileges request itself, which stands before the [try], is
    let through unchanged as well. *)
Lemma import_bitbucket_TypeError_not_reraised :
  process_pages Fixture.null_values Fixture.alice [Fixture.null_page]
    Fixture.world0
  = (Fixture.world0, Raise (mk_exn TypeError "'NoneType' object is not iterable")) /\
  snd (import_bitbucket Fixture.null_values 1 Fixture.alice true Fixture.world0)
  = Ret true /\
  stdout (fst (import_bitbucket Fixture.null_values 1 Fixture.alice true
                 Fixture.world0))
  = ["'NoneType' object is not iterable"] /\
  snd (bitbucket_team_repos Fixture.list_privileges 1 Fixture.bitbucket_session
         Fixture.alice (Fixture.page (JArr []) None) Fixture.world0)
  = Raise (mk_exn TypeError "list indices must be integers or slices, not str") /\
  snd (import_bitbucket Fixture.list_privileges 1 Fixture.alice true
         Fixture.world0)
  = Raise (mk_exn TypeError "list indices must be integers or slices, not str") /\
  http_get Fixture.privileges_raises Fixture.bitbucket_session
    (JStr "https://bitbucket.org/api/1.0/user/privileges/")
  = Err (mk_exn ValueError "No connection adapters were found") /\
  snd (import_bitbucket Fixture.privileges_raises 1 Fixture.alice true
         Fixture.world0)
  = Raise (mk_exn ValueError "No connection adapters were found").
Proof. repeat split; reflexivity. Qed.

Lemma import_bitbucket_reconnect_policy_witness :
  bitbucket_user_repos Fixture.html_first_page 1 Fixture.bitbucket_session
    Fixture.alice (Some {| provider := "bitbucket"; uid := "alice" |})
    Fixture.world0
  = (record_request (GET Fixture.bitbucket_session (JStr Fixture.bb_url))
       Fixture.world0,
     Raise (mk_exn ValueError "No JSON object could be decoded")) /\
  import_bitbucket Fixture.html_first_page 1 Fixture.alice true Fixture.world0
  = (record_request (GET Fixture.bitbucket_session (JStr Fixture.bb_url))
       Fixture.world0,
     Raise bitbucket_repos_error).
Proof.
  split; [reflexivity|].
  apply (proj1 (import_bitbucket_reconnect_policy Fixture.html_first_page 1
                  Fixture.alice Fixture.bitbucket_session
                  [{| provider := "bitbucket"; uid := "alice" |}]
                  {| provider := "bitbucket"; uid := "alice" |}
                  Fixture.world0 eq_refl eq_refl eq_refl)
           _ (mk_exn ValueError "No JSON object could be decoded")).
  - reflexivity.
  - right. reflexivity.
Defined.

(** ** The project token lookup *)

Section TokenLookup.

Context {DB Org : Type} (env : Env DB Org).

Lemma local_token_step_found user t ts rest token0 w :
  SocialToken_filter env (username user) GitHubProvider_id = Ok (t :: ts) ->
  local_token_loop env (user :: rest) token0 w
  = local_token_loop env rest (JStr (token t)) w.
Proof.
  intros H. simpl. unfold tokens_exists, tokens_first, bind, lift.
  rewrite H. reflexivity.
Qed.

Lemma local_token_step_none user rest token0 w :
  SocialToken_filter env (username user) GitHubProvider_id = Ok [] ->
  local_token_loop env (user :: rest) token0 w
  = local_token_loop env rest token0 w.
Proof.
  intros H. simpl. unfold tokens_exists, bind, lift.
  rewrite H. reflexivity.
Qed.

Lemma local_token_step_fails user rest token0 w e :
  SocialToken_filter env (username user) GitHubProvider_id = Err e ->
  local_token_loop env (user :: rest) token0 w = (w, (token0, Raise e)).
Proof.
  intros H. simpl. unfold tokens_exists, bind, lift.
  rewrite H. reflexivity.
Qed.

(** The loop leaves the world alone and either finishes or raises. *)
Lemma local_token_loop_total users :
  forall token0 w,
    exists t o,
      local_token_loop env users token0 w = (w, (t, o)) /\ o <> OutOfFuel.
Proof.
  induction users as [|user rest IH]; intros token0 w.
  - exists token0, (Ret tt). split; [reflexivity|discriminate].
  - destruct (SocialToken_filter env (username user) GitHubProvider_id)
      as [[|t ts]|e] eqn:H.
    + rewrite (local_token_step_none _ _ _ _ H). apply IH.
    + rewrite (local_token_step_found _ _ _ _ _ _ H). apply IH.
    + rewrite (local_token_step_fails _ _ _ _ _ H).
      exists token0, (Raise e). split; [reflexivity|discriminate].
Qed.

Lemma local_token_loop_fails before user rest e :
  all_answer env before ->
  SocialToken_filter env (username user) GitHubProvider_id = Err e ->
  forall token0 w,
    local_token_loop env (before ++ user :: rest) token0 w
    = (w, (last_stored_token env before token0, Raise e)).
Proof.
  intros Hbefore Hfail.
  induction before as [|v before IH]; intros token0 w.
  - apply local_token_step_fails, Hfail.
  - destruct Hbefore as [(rows & Hrows) Hbefore].
    change ((v :: before) ++ user :: rest)%list
      with (v :: (before ++ user :: rest))%list.
    simpl last_stored_token. rewrite Hrows.
    destruct rows as [|t ts].
    + rewrite (local_token_step_none _ _ _ _ Hrows). apply IH, Hbefore.
    + rewrite (local_token_step_found _ _ _ _ _ _ Hrows). apply IH, Hbefore.
Qed.

Lemma token_lookup_total project force_local w :
  exists t o,
    token_lookup env project force_local w = (w, (t, o)) /\ o <> OutOfFuel.
Proof.
  unfold token_lookup.
  destruct (getattr (DONT_HIT_DB env) true && negb force_local).
  - destruct (api_project_token env (pk project)) as [answer|e].
    + destruct (py_getitem answer "token") as [t|e].
      * exists t, (Ret tt). split; [reflexivity|discriminate].
      * exists JNull, (Raise e). split; [reflexivity|discriminate].
    + exists JNull, (Raise e). split; [reflexivity|discriminate].
  - destruct (project_users env project) as [users|e].
    + apply local_token_loop_total.
    + exists JNull, (Raise e). split; [reflexivity|discriminate].
Qed.

Lemma get_token_for_project_after_failure project force_local w t e :
  getattr (ALLOW_PRIVATE_REPOS env) false = true ->
  token_lookup env project force_local w = (w, (t, Raise e)) ->
  get_token_for_project env project force_local w
  = (add_log "error" token_lookup_failure w, Ret t).
Proof.
  intros Hallow Hrun. unfold get_token_for_project.
  rewrite Hallow. cbn [negb]. rewrite Hrun. reflexivity.
Qed.

(** C4 (amended). With private-repo access enabled, an exception raised
    during the token lookup is logged and swallowed: the lookup never
    raises.  It then returns nothing when the exception comes from the
    remote API path or from the query for the project's users, and, when a
    credential query fails in the local iteration, the token found for the
    users visited before the failure (nothing if none had one). *)
Theorem get_token_for_project_swallows_exceptions project force_local w :
  getattr (ALLOW_PRIVATE_REPOS env) false = true ->
  (exists w' t,
      get_token_for_project env project force_local w = (w', Ret t)) /\
  (forall e,
      getattr (DONT_HIT_DB env) true && negb force_local = true ->
      (api_project_token env (pk project) = Err e \/
       exists answer,
         api_project_token env (pk project) = Ok answer /\
         py_getitem answer "token" = Err e) ->
      get_token_for_project env project force_local w
      = (add_log "error" token_lookup_failure w, Ret JNull)) /\
  (forall e,
      getattr (DONT_HIT_DB env) true && negb force_local = false ->
      project_users env project = Err e ->
      get_token_for_project env project force_local w
      = (add_log "error" token_lookup_failure w, Ret JNull)) /\
  (forall before user rest e,
      getattr (DONT_HIT_DB env) true && negb force_local = false ->
      project_users env project = Ok (before ++ user :: rest)%list ->
      all_answer env before ->
      SocialToken_filter env (username user) GitHubProvider_id = Err e ->
      get_token_for_project env project force_local w
      = (add_log "error" token_lookup_failure w,
         Ret (last_stored_token env before JNull))).
Proof.
  intros Hallow. repeat split.
  - destruct (token_lookup_total project force_local w) as (t & o & Hrun & Hfuel).
    destruct o as [[]|e|]; [| |contradiction].
    + exists w, t. unfold get_token_for_project.
      rewrite Hallow. cbn [negb]. rewrite Hrun. reflexivity.
    + exists (add_log "error" token_lookup_failure w), t.
      apply (get_token_for_project_after_failure _ _ _ _ e Hallow Hrun).
  - intros e Hremote Hfail.
    apply (get_token_for_project_after_failure _ _ _ _ e Hallow).
    unfold token_lookup. rewrite Hremote.
    destruct Hfail as [->|(answer & -> & ->)]; reflexivity.
  - intros e Hlocal Hfail.
    apply (get_token_for_project_after_failure _ _ _ _ e Hallow).
    unfold token_lookup. rewrite Hlocal, Hfail. reflexivity.
  - intros before user rest e Hlocal Husers Hbefore Hfail.
    apply (get_token_for_project_after_failure _ _ _ _ e Hallow).
    unfold token_lookup. rewrite Hlocal, Husers.
    apply local_token_loop_fails; assumption.
Qed.

End TokenLookup.

(** C4, as stated, fails in the local path: the credential of [alice] is
    found, the query for [bob] raises, and the lookup logs the failure and
    returns the token of [alice]. *)
Lemma get_token_for_project_returns_token_after_failure :
  getattr (ALLOW_PRIVATE_REPOS Fixture.broken_store) false = true /\
  token_lookup Fixture.broken_store Fixture.docs_project false Fixture.world0
  = (Fixture.world0, (JStr "secret-token", Raise Fixture.database_error)) /\
  get_token_for_project Fixture.broken_store Fixture.docs_project false
    Fixture.world0
  = (add_log "error" token_lookup_failure Fixture.world0,
     Ret (JStr "secret-token")).
Proof. repeat split; reflexivity. Qed.

Lemma get_token_for_project_swallows_exceptions_witness :
  getattr (ALLOW_PRIVATE_REPOS Fixture.broken_store) false = true /\
  get_token_for_project Fixture.broken_store Fixture.docs_project true
    Fixture.world0
  = (add_log "error" token_lookup_failure Fixture.world0,
     Ret (last_stored_token Fixture.broken_store [Fixture.alice] JNull)).
Proof.
  split; [reflexivity|].
  apply (proj2 (proj2 (proj2
           (get_token_for_project_swallows_exceptions Fixture.broken_store
              Fixture.docs_project true Fixture.world0 eq_refl)))
           [Fixture.alice] Fixture.bob [] Fixture.database_error).
  - reflexivity.
  - reflexivity.
  - split; [exists [Fixture.github_token]; reflexivity|exact I].
  - reflexivity.
Defined.

(** ** The failure policy of import_github, first phase *)

Section GithubPolicy.

Context {DB Org : Type} (env : Env DB Org).

Lemma db_call_http_log {A} (f : DB -> DB * result A) w :
  http_log (fst (db_call f w)) = http_log w.
Proof.
  unfold db_call. destruct (f (db w)) as [d [a|e]]; reflexivity.
Qed.

Lemma db_call_db {A} (f : DB -> DB * result A) w :
  db (fst (db_call f w)) = fst (f (db w)).
Proof.
  unfold db_call. destruct (f (db w)) as [d [a|e]]; reflexivity.
Qed.

Lemma github_user_repos_http_log user repos :
  forall w, http_log (fst (github_user_repos env user repos w)) = http_log w.
Proof.
  unfold github_user_repos.
  induction repos as [|repo rest IH]; intros w; simpl; [reflexivity|].
  unfold bind.
  pose proof (db_call_http_log (repo_create_from_github_api env repo user None) w)
    as Hstep.
  destruct (db_call (repo_create_from_github_api env repo user None) w)
    as [w' [[]|e|]]; simpl in *; try assumption.
  rewrite IH. exact Hstep.
Qed.

(** C2 (amended). When the user-repository listing was fetched and, while
    it is walked, the repository creation raises [TypeError] or
    [ValueError] on one of its items (as it does on the keys of a
    non-empty JSON object), [import_github] raises the reconnect error of
    the first phase; the database is the one left by the items before the
    failing one and by the failing call, and no HTTP call follows the
    listing: no rollback, no further upsert. *)
Theorem import_github_reconnects_on_bad_item
        fuel user session before bad rest w w1 w2 w3 e :
  get_oauth_session env user GitHubProvider_id w = (w, Ret (Some session)) ->
  github_paginate env fuel session
    "https://api.github.com/user/repos?per_page=100" w
  = (w1, Ret (before ++ bad :: rest)%list) ->
  github_user_repos env user before w1 = (w2, Ret tt) ->
  db_call (repo_create_from_github_api env bad user None) w2 = (w3, Raise e) ->
  exn_cls e = TypeError \/ exn_cls e = ValueError ->
  import_github env fuel user true w = (w3, Raise github_repos_error) /\
  http_log w3 = http_log w1 /\
  db w3 = fst (repo_create_from_github_api env bad user None (db w2)).
Proof.
  intros Hs Hlist Hbefore Hbad Hcls.
  assert (Hrun : github_user_repos env user (before ++ bad :: rest) w1
                 = (w3, Raise e)).
  { unfold github_user_repos in *.
    apply (for_each_stops before rest bad _ w1 w2 w3 e Hbefore).
    simpl. apply (bind_Raise _ _ _ _ _ Hbad). }
  repeat split.
  - unfold import_github. rewrite (bind_Ret _ _ _ _ _ Hs).
    unfold bind at 1. unfold bind at 1. rewrite Hlist.
    unfold bind at 1.
    rewrite (try_except_caught _ _ _ _ _ _ Hrun (caught_by_Type_or_Value e Hcls)).
    reflexivity.
  - pose proof (github_user_repos_http_log user (before ++ bad :: rest) w1) as H.
    rewrite Hrun in H. exact H.
  - pose proof (db_call_db (repo_create_from_github_api env bad user None) w2) as H.
    rewrite Hbad in H. exact H.
Qed.

End GithubPolicy.

(** C2, as stated, fails.  A listing that is the empty JSON object yields
    no item: nothing is raised, and the import goes on to the
    organizations and returns [True].  A listing that is [null] makes the
    paginator raise [TypeError] before the [try] of the first phase is
    entered, and that [TypeError] is what the caller gets. *)
Lemma import_github_bad_listing_without_reconnect_error :
  snd (import_github Fixture.empty_object 1 Fixture.alice true Fixture.world0)
  = Ret true /\
  http_log (fst (import_github Fixture.empty_object 1 Fixture.alice true
                   Fixture.world0))
  = [GET Fixture.github_session (JStr Fixture.repos_url);
     GET Fixture.github_session (JStr Fixture.orgs_url)] /\
  snd (import_github Fixture.null_listing 1 Fixture.alice true Fixture.world0)
  = Raise (mk_exn TypeError "'NoneType' object is not iterable").
Proof. repeat split; reflexivity. Qed.

Lemma import_github_reconnects_on_bad_item_witness :
  github_paginate Fixture.mixed_listing 1 Fixture.github_session
    "https://api.github.com/user/repos?per_page=100" Fixture.world0
  = (record_request (GET Fixture.github_session (JStr Fixture.repos_url))
       Fixture.world0,
     Ret [Fixture.repo_json "alice/docs"; JNum 5; Fixture.repo_json "alice/site"]) /\
  import_github Fixture.mixed_listing 1 Fixture.alice true Fixture.world0
  = ({| db := Fixture.store_with ["alice/docs"];
        http_log := [GET Fixture.github_session (JStr Fixture.repos_url)];
        stdout := []; log_records := [] |},
     Raise github_repos_error).
Proof.
  split; [reflexivity|].
  apply (proj1 (import_github_reconnects_on_bad_item Fixture.mixed_listing 1
                  Fixture.alice Fixture.github_session
                  [Fixture.repo_json "alice/docs"] (JNum 5)
                  [Fixture.repo_json "alice/site"]
                  Fixture.world0
                  (record_request
                     (GET Fixture.github_session (JStr Fixture.repos_url))
                     Fixture.world0)
                  {| db := Fixture.store_with ["alice/docs"];
                     http_log := [GET Fixture.github_session (JStr Fixture.repos_url)];
                     stdout := []; log_records := [] |}
                  {| db := Fixture.store_with ["alice/docs"];
                     http_log := [GET Fixture.github_session (JStr Fixture.repos_url)];
                     stdout := []; log_records := [] |}
                  (mk_exn TypeError "'int' object is not subscriptable")
                  eq_refl eq_refl eq_refl eq_refl (or_introl eq_refl))).
Defined.

(** The error object of the vendor in place of the listing: its keys are
    walked, the first one is refused, the reconnect error is raised. *)
Example import_github_bad_credentials :
  import_github Fixture.bad_credentials 1 Fixture.alice true Fixture.world0
  = (record_request (GET Fixture.github_session (JStr Fixture.repos_url))
       Fixture.world0,
     Raise github_repos_error).
Proof. reflexivity. Qed.

(** ** Complete runs *)

(** A GitHub import: the user's repository, then the organization, its
    detail and its repositories. *)
Example import_github_with_org :
  import_github Fixture.with_org 1 Fixture.alice true Fixture.world0
  = ({| db := {| Fixture.repositories :=
                   [("alice/docs", None); ("acme/tool", Some "acme")];
                 Fixture.organizations := ["acme"] |};
        http_log :=
          gets Fixture.github_session
            [JStr Fixture.repos_url; JStr Fixture.orgs_url;
             JStr "https://api.github.com/orgs/acme";
             JStr "https://api.github.com/orgs/acme/repos?per_page=100"];
        stdout := []; log_records := [] |},
     Ret true).
Proof. reflexivity. Qed.

(** A Bitbucket import: two pages of the user's repositories, then the
    repositories of the team. *)
Example import_bitbucket_with_team :
  import_bitbucket Fixture.with_team 2 Fixture.alice true Fixture.world0
  = ({| db := Fixture.store_with ["alice/docs"; "alice/site"; "acme/tool"];
        http_log :=
          gets Fixture.bitbucket_session
            [JStr Fixture.bb_url; JStr Fixture.bb_url2;
             JStr Fixture.privileges_url;
             JStr "https://bitbucket.org/api/2.0/teams/acme/repositories"];
        stdout := []; log_records := [] |},
     Ret true).
Proof. reflexivity. Qed.

(** A page that names itself as the next one: the paginator never comes
    back, whatever the fuel. *)
Example github_paginate_cycle fuel :
  snd (github_paginate Fixture.cycle fuel Fixture.github_session
         Fixture.repos_url Fixture.world0)
  = OutOfFuel /\
  length (http_log (fst (github_paginate Fixture.cycle fuel Fixture.github_session
                           Fixture.repos_url Fixture.world0)))
  = fuel.
Proof.
  assert (Hend : github_endless Fixture.cycle Fixture.github_session
                   (fun _ => Fixture.repos_url)).
  { intros i. do 3 eexists. repeat split; reflexivity. }
  destruct (github_loop_endless Fixture.cycle _ _ Hend fuel 0 [] Fixture.world0)
    as (w' & Hrun & _ & Hlog).
  unfold github_paginate. cbv beta in Hrun. rewrite Hrun. split; [reflexivity|].
  exact Hlog.
Qed.

(** The JSON text posted to register the webhook. *)
Example github_webhook_payload_text :
  json_dumps (github_webhook_payload Fixture.hooks)
  = github_webhook_text "readthedocs.org".
Proof. reflexivity. Qed.

(** * Further properties of the module *)

(** ** get_oauth_session *)

Section SessionLookup.

Context {DB Org : Type} (env : Env DB Org).

Lemma get_oauth_session_frame user p w :
  fst (get_oauth_session env user p w) = w.
Proof.
  unfold get_oauth_session, bind, tokens_exists, tokens_first, bind, lift.
  destruct (SocialToken_filter env (username user) p) as [[|t ts]|e];
    try reflexivity.
  simpl. destruct (String.eqb p GitHubProvider_id); [reflexivity|].
  destruct (String.eqb p BitbucketProvider_id); reflexivity.
Qed.

(** X1. A stored credential for a provider other than GitHub and Bitbucket
    leaves the local [session] unassigned: [get_oauth_session] raises
    [UnboundLocalError] at its [return], and the world is untouched. *)
Theorem get_oauth_session_unsupported_provider user p t ts w :
  SocialToken_filter env (username user) p = Ok (t :: ts) ->
  p <> GitHubProvider_id ->
  p <> BitbucketProvider_id ->
  get_oauth_session env user p w
  = (w, Raise (mk_exn UnboundLocalError
                 "local variable 'session' referenced before assignment")).
Proof.
  intros H Hg Hb.
  unfold get_oauth_session, bind, tokens_exists, tokens_first, bind, lift.
  rewrite H. simpl.
  apply String.eqb_neq in Hg, Hb. rewrite Hg, Hb. reflexivity.
Qed.

(** X2. With several stored credentials for a supported provider the
    session is built from the first one alone: an OAuth2 bearer session
    from its client id and token for GitHub, an OAuth1 session from its
    consumer key and secret and its token and token secret for Bitbucket.
    Whatever its outcome, the lookup makes no HTTP call and writes
    nothing. *)
Theorem get_oauth_session_first_credential user p t ts w :
  SocialToken_filter env (username user) p = Ok (t :: ts) ->
  (p = GitHubProvider_id ->
   get_oauth_session env user p w
   = (w, Ret (Some (OAuth2Session (client_id (app t)) (token t) "bearer")))) /\
  (p = BitbucketProvider_id ->
   get_oauth_session env user p w
   = (w, Ret (Some (OAuth1Session (client_id (app t)) (secret (app t))
                                  (token t) (token_secret t))))) /\
  (forall other q, fst (get_oauth_session env other q w) = w).
Proof.
  intros H. repeat split.
  - intros ->. apply (get_oauth_session_github env user t ts w H).
  - intros ->. apply (get_oauth_session_bitbucket env user t ts w H).
  - intros other q. apply get_oauth_session_frame.
Qed.

End SessionLookup.

Lemma get_oauth_session_unsupported_provider_witness :
  SocialToken_filter Fixture.gitlab_only (username Fixture.alice) "gitlab"
  = Ok [Fixture.github_token] /\
  get_oauth_session Fixture.gitlab_only Fixture.alice "gitlab" Fixture.world0
  = (Fixture.world0,
     Raise (mk_exn UnboundLocalError
              "local variable 'session' referenced before assignment")).
Proof.
  split; [reflexivity|].
  apply (get_oauth_session_unsupported_provider Fixture.gitlab_only
           Fixture.alice "gitlab" Fixture.github_token [] Fixture.world0);
    [reflexivity|discriminate|discriminate].
Defined.

Lemma get_oauth_session_first_credential_witness :
  SocialToken_filter Fixture.two_tokens (username Fixture.alice) "github"
  = Ok [Fixture.github_token; Fixture.second_token] /\
  get_oauth_session Fixture.two_tokens Fixture.alice "github" Fixture.world0
  = (Fixture.world0, Ret (Some Fixture.github_session)).
Proof.
  split; [reflexivity|].
  apply (proj1 (get_oauth_session_first_credential Fixture.two_tokens
                  Fixture.alice "github" Fixture.github_token
                  [Fixture.second_token] Fixture.world0 eq_refl)).
  reflexivity.
Defined.

(** ** get_token_for_project *)

Section TokenLookupPaths.

Context {DB Org : Type} (env : Env DB Org).

Lemma local_token_loop_answers users :
  all_answer env users ->
  forall token0 w,
    local_token_loop env users token0 w
    = (w, (last_stored_token env users token0, Ret tt)).
Proof.
  induction users as [|user rest IH]; intros Hall token0 w.
  - reflexivity.
  - destruct Hall as [(rows & Hrows) Hrest].
    simpl last_stored_token. rewrite Hrows. destruct rows as [|t ts].
    + rewrite (local_token_step_none env _ _ _ _ Hrows). apply IH, Hrest.
    + rewrite (local_token_step_found env _ _ _ _ _ _ Hrows). apply IH, Hrest.
Qed.

Lemma last_stored_token_last before user t ts :
  SocialToken_filter env (username user) GitHubProvider_id = Ok (t :: ts) ->
  forall token0,
    last_stored_token env (before ++ [user]) token0 = JStr (token t).
Proof.
  intros H. induction before as [|v before IH]; intros token0; simpl.
  - rewrite H. reflexivity.
  - destruct (SocialToken_filter env (username v) GitHubProvider_id)
      as [[|t' ts']|e]; apply IH.
Qed.

(** X3. With private-repo access disabled, or the setting absent,
    [get_token_for_project] returns [None] at once: nothing is asked of
    the API or of the credential store, and nothing is logged. *)
Theorem get_token_for_project_disabled project force_local w :
  ALLOW_PRIVATE_REPOS env = None \/ ALLOW_PRIVATE_REPOS env = Some false ->
  get_token_for_project env project force_local w = (w, Ret JNull).
Proof.
  intros [H|H]; unfold get_token_for_project; rewrite H; reflexivity.
Qed.

(** X4. In the local path (forced, or chosen by [DONT_HIT_DB = False]),
    when every credential query answers, [get_token_for_project] returns
    the first stored GitHub token of the last project user who has one,
    [None] when no user has one; users without a credential are skipped,
    nothing is logged.  In particular a credential of the last user
    wins. *)
Theorem get_token_for_project_local_last_token project force_local users w :
  getattr (ALLOW_PRIVATE_REPOS env) false = true ->
  force_local = true \/ DONT_HIT_DB env = Some false ->
  project_users env project = Ok users ->
  all_answer env users ->
  get_token_for_project env project force_local w
  = (w, Ret (last_stored_token env users JNull)) /\
  (forall before user t ts,
      users = (before ++ [user])%list ->
      SocialToken_filter env (username user) GitHubProvider_id = Ok (t :: ts) ->
      get_token_for_project env project force_local w = (w, Ret (JStr (token t)))).
Proof.
  intros Hallow Hlocal Husers Hall.
  assert (Hpath : getattr (DONT_HIT_DB env) true && negb force_local = false).
  { destruct Hlocal as [-> | ->]; [apply andb_false_r|reflexivity]. }
  assert (Hrun : get_token_for_project env project force_local w
                 = (w, Ret (last_stored_token env users JNull))).
  { unfold get_token_for_project. rewrite Hallow. cbn [negb].
    unfold token_lookup. rewrite Hpath, Husers.
    rewrite (local_token_loop_answers users Hall). reflexivity. }
  split; [exact Hrun|].
  intros before user t ts -> Hlast. rewrite Hrun.
  rewrite (last_stored_token_last before user t ts Hlast). reflexivity.
Qed.

(** X5. In the remote path ([DONT_HIT_DB] true or absent, not forced
    local) [get_token_for_project] returns the [token] field of the API's
    answer as it is, without looking at the project's users or at the
    credential store, and logs nothing. *)
Theorem get_token_for_project_remote project answer t w :
  getattr (ALLOW_PRIVATE_REPOS env) false = true ->
  DONT_HIT_DB env = None \/ DONT_HIT_DB env = Some true ->
  api_project_token env (pk project) = Ok answer ->
  py_getitem answer "token" = Ok t ->
  get_token_for_project env project false w = (w, Ret t).
Proof.
  intros Hallow Hremote Hapi Htoken.
  unfold get_token_for_project. rewrite Hallow. cbn [negb].
  unfold token_lookup.
  replace (getattr (DONT_HIT_DB env) true && negb false) with true
    by (destruct Hremote as [-> | ->]; reflexivity).
  rewrite Hapi, Htoken. reflexivity.
Qed.

End TokenLookupPaths.

Lemma get_token_for_project_disabled_witness :
  get_token_for_project
    (Fixture.configured None (Some false) (Ok [Fixture.alice])
       (Ok (JObj [("token", JStr "remote-token")])))
    Fixture.docs_project true Fixture.world0
  = (Fixture.world0, Ret JNull).
Proof.
  apply (get_token_for_project_disabled
           (Fixture.configured None (Some false) (Ok [Fixture.alice])
              (Ok (JObj [("token", JStr "remote-token")])))
           Fixture.docs_project true Fixture.world0).
  left. reflexivity.
Defined.

Lemma get_token_for_project_local_last_token_witness :
  get_token_for_project
    (Fixture.configured (Some true) None
       (Ok [Fixture.alice; Fixture.bob; Fixture.carol])
       (Err Fixture.database_error))
    Fixture.docs_project true Fixture.world0
  = (Fixture.world0, Ret (JStr "bob-token")).
Proof.
  apply (proj1 (get_token_for_project_local_last_token
                  (Fixture.configured (Some true) None
                     (Ok [Fixture.alice; Fixture.bob; Fixture.carol])
                     (Err Fixture.database_error))
                  Fixture.docs_project true
                  [Fixture.alice; Fixture.bob; Fixture.carol] Fixture.world0
                  eq_refl (or_introl eq_refl) eq_refl
                  (conj (ex_intro _ [Fixture.github_token] eq_refl)
                     (conj (ex_intro _ [Fixture.bob_token] eq_refl)
                        (conj (ex_intro _ [] eq_refl) I))))).
Defined.

Lemma get_token_for_project_remote_witness :
  get_token_for_project
    (Fixture.configured (Some true) None
       (Err Fixture.database_error) (Ok (JObj [("token", JNum 42)])))
    Fixture.docs_project false Fixture.world0
  = (Fixture.world0, Ret (JNum 42)).
Proof.
  apply (get_token_for_project_remote
           (Fixture.configured (Some true) None
              (Err Fixture.database_error) (Ok (JObj [("token", JNum 42)])))
           Fixture.docs_project (JObj [("token", JNum 42)]) (JNum 42)
           Fixture.world0 eq_refl (or_introl eq_refl) eq_refl eq_refl).
Defined.

(** ** What the paginators do to the world *)

Section PaginatorFrame.

Context {DB Org : Type} (env : Env DB Org).

Lemma record_request_add q (w : World DB) :
  record_request q w = add_requests [q] w.
Proof. reflexivity. Qed.

Lemma github_loop_frame session :
  forall fuel url result w,
    exists urls,
      fst (github_paginate_loop env fuel session url result w)
      = add_requests (gets session urls) w /\
      length urls <= fuel.
Proof.
  induction fuel as [|fuel IH]; intros url result w;
    rewrite github_loop_live; destruct (live url) as [u|].
  - exists []. rewrite add_requests_nil. split; [reflexivity|simpl; lia].
  - exists []. rewrite add_requests_nil. split; [reflexivity|simpl; lia].
  - unfold bind, session_get, response_json.
    destruct (http_get env session (JStr u)) as [r|e];
      [|exists [JStr u]; split; [reflexivity|simpl; lia]].
    destruct (json_body r) as [page|];
      [|exists [JStr u]; split; [reflexivity|simpl; lia]].
    simpl. destruct (py_iter page) as [items|e];
      [|exists [JStr u]; split; [reflexivity|simpl; lia]].
    simpl.
    destruct (IH (github_next r) (result ++ items)%list
                 (record_request (GET session (JStr u)) w))
      as (urls & Hrun & Hlen).
    exists (JStr u :: urls). rewrite Hrun. simpl gets.
    rewrite add_requests_cons. split; [reflexivity|simpl; lia].
  - exists []. rewrite add_requests_nil. split; [reflexivity|simpl; lia].
Qed.

Lemma bitbucket_loop_frame session :
  forall fuel url result w,
    exists urls,
      fst (bitbucket_paginate_loop env fuel session url result w)
      = add_requests (gets session urls) w /\
      length urls <= fuel.
Proof.
  induction fuel as [|fuel IH]; intros url result w; simpl;
    destruct (truthy url).
  - exists []. rewrite add_requests_nil. split; [reflexivity|simpl; lia].
  - exists []. rewrite add_requests_nil. split; [reflexivity|simpl; lia].
  - unfold bind, session_get, response_json.
    destruct (http_get env session url) as [r|e];
      [|exists [url]; split; [reflexivity|simpl; lia]].
    destruct (json_body r) as [page|];
      [|exists [url]; split; [reflexivity|simpl; lia]].
    simpl. destruct (py_get page "next") as [nxt|e];
      [|exists [url]; split; [reflexivity|simpl; lia]].
    simpl.
    destruct (IH (if truthy nxt then nxt else JNull) (result ++ [page])%list
                 (record_request (GET session url) w))
      as (urls & Hrun & Hlen).
    exists (url :: urls). rewrite Hrun. simpl gets.
    rewrite add_requests_cons. split; [reflexivity|simpl; lia].
  - exists []. rewrite add_requests_nil. split; [reflexivity|simpl; lia].
Qed.

(** X6. Whatever the network answers, and whether they return, raise or
    keep going, the two paginators only add GET requests of their session
    to the world, at most one per iteration: no POST is made, the
    database, the printed lines and the log are left as they were. *)
Theorem paginators_only_get fuel session url w :
  (exists urls,
      fst (github_paginate env fuel session url w)
      = add_requests (gets session urls) w /\
      length urls <= fuel) /\
  (exists urls,
      fst (bitbucket_paginate env fuel session url w)
      = add_requests (gets session urls) w /\
      length urls <= fuel).
Proof.
  split.
  - apply github_loop_frame.
  - apply bitbucket_loop_frame.
Qed.

End PaginatorFrame.

(** ** import_github beyond the first loop *)

Section GithubImport.

Context {DB Org : Type} (env : Env DB Org).

Lemma py_iter_error v e : py_iter v = Err e -> exn_cls e = TypeError.
Proof. destruct v; simpl; intros H; inversion H; reflexivity. Qed.

Lemma py_getitem_error v key e :
  py_getitem v key = Err e -> exn_cls e = TypeError \/ exn_cls e = KeyError.
Proof.
  destruct v; simpl; intros H; try (inversion H; left; reflexivity).
  destruct (assoc key fields); inversion H. right. reflexivity.
Qed.

Lemma py_keys_error v e : py_keys v = Err e -> exn_cls e = AttributeError.
Proof. destruct v; simpl; intros H; inversion H; reflexivity. Qed.

Lemma import_github_with_session fuel user s w :
  get_oauth_session env user GitHubProvider_id w = (w, Ret (Some s)) ->
  import_github env fuel user true w
  = ((owner_resp <- github_paginate env fuel s
                      "https://api.github.com/user/repos?per_page=100" ;;
      try_except (github_user_repos env user owner_resp)
                 [TypeError; ValueError]
                 (fun _ => raise github_repos_error) ;;;
      try_except (github_org_repos env fuel s user)
                 [TypeError; ValueError]
                 (fun _ => raise github_orgs_error)) ;;;
     ret true) w.
Proof.
  intros Hs. unfold import_github. rewrite (bind_Ret _ _ _ _ _ Hs). reflexivity.
Qed.

Lemma github_paginate_first_page fuel s url w r :
  0 < fuel ->
  str_truthy url = true ->
  http_get env s (JStr url) = Ok r ->
  (json_body r = None ->
   github_paginate env fuel s url w
   = (record_request (GET s (JStr url)) w,
      Raise (mk_exn ValueError "No JSON object could be decoded"))) /\
  (forall v e,
      json_body r = Some v -> py_iter v = Err e ->
      github_paginate env fuel s url w
      = (record_request (GET s (JStr url)) w, Raise e)).
Proof.
  intros Hfuel Hu Hget. destruct fuel as [|fuel]; [lia|].
  unfold github_paginate. simpl. rewrite Hu.
  unfold bind, session_get, response_json. rewrite Hget.
  split.
  - intros ->. reflexivity.
  - intros v e -> Hiter. simpl. rewrite Hiter. reflexivity.
Qed.

(** X9. In [import_github] the repository listing is fetched before the
    first [try]: whatever exception the paginator raises there reaches
    the caller unchanged, a [ValueError] or [TypeError] included.  So a
    first page that is not JSON gives the [ValueError] of the decoder, and
    one that decodes to something that cannot be iterated gives its
    [TypeError], neither of them the reconnect error. *)
Theorem import_github_listing_failure_unchanged fuel user s w :
  get_oauth_session env user GitHubProvider_id w = (w, Ret (Some s)) ->
  (forall w1 e,
      github_paginate env fuel s
        "https://api.github.com/user/repos?per_page=100" w = (w1, Raise e) ->
      import_github env fuel user true w = (w1, Raise e)) /\
  (forall r,
      0 < fuel ->
      http_get env s (JStr "https://api.github.com/user/repos?per_page=100") = Ok r ->
      json_body r = None ->
      import_github env fuel user true w
      = (record_request
           (GET s (JStr "https://api.github.com/user/repos?per_page=100")) w,
         Raise (mk_exn ValueError "No JSON object could be decoded"))) /\
  (forall r v e,
      0 < fuel ->
      http_get env s (JStr "https://api.github.com/user/repos?per_page=100") = Ok r ->
      json_body r = Some v ->
      py_iter v = Err e ->
      import_github env fuel user true w
      = (record_request
           (GET s (JStr "https://api.github.com/user/repos?per_page=100")) w,
         Raise e)).
Proof.
  intros Hs.
  assert (Hraw : forall w1 e,
             github_paginate env fuel s
               "https://api.github.com/user/repos?per_page=100" w = (w1, Raise e) ->
             import_github env fuel user true w = (w1, Raise e)).
  { intros w1 e Hrun. rewrite (import_github_with_session _ _ _ _ Hs).
    unfold bind at 1. unfold bind at 1. rewrite Hrun. reflexivity. }
  split; [exact Hraw|]. split.
  - intros r Hfuel Hget Hbody. apply Hraw.
    apply (proj1 (github_paginate_first_page fuel s
                    "https://api.github.com/user/repos?per_page=100" w r
                    Hfuel eq_refl Hget) Hbody).
  - intros r v e Hfuel Hget Hbody Hiter. apply Hraw.
    apply (proj2 (github_paginate_first_page fuel s
                    "https://api.github.com/user/repos?per_page=100" w r
                    Hfuel eq_refl Hget)
             v e Hbody Hiter).
Qed.

Lemma import_github_after_repos fuel user s w w1 listing w2 :
  get_oauth_session env user GitHubProvider_id w = (w, Ret (Some s)) ->
  github_paginate env fuel s
    "https://api.github.com/user/repos?per_page=100" w = (w1, Ret listing) ->
  github_user_repos env user listing w1 = (w2, Ret tt) ->
  import_github env fuel user true w
  = (try_except (github_org_repos env fuel s user)
                [TypeError; ValueError]
                (fun _ => raise github_orgs_error) ;;;
     ret true) w2.
Proof.
  intros Hs Hlist Hrepos. rewrite (import_github_with_session _ _ _ _ Hs).
  unfold bind at 1. unfold bind at 1. rewrite Hlist.
  unfold bind at 1. rewrite (try_except_Ret _ _ _ _ _ _ Hrepos).
  reflexivity.
Qed.

(** X10. Once the user's repositories are written, a malformed
    organization listing is reported as follows.  A listing that is not
    JSON, or that cannot be iterated, or whose first entry cannot be
    subscripted (a string, as when the listing is an error object) gives
    the organizations reconnect error.  A first entry that is an object
    without [login] gives a [KeyError], which is not caught.  In each case
    the repositories written before stay written. *)
Theorem import_github_org_listing_malformed fuel user s w w1 listing w2 r :
  get_oauth_session env user GitHubProvider_id w = (w, Ret (Some s)) ->
  github_paginate env fuel s
    "https://api.github.com/user/repos?per_page=100" w = (w1, Ret listing) ->
  github_user_repos env user listing w1 = (w2, Ret tt) ->
  http_get env s (JStr "https://api.github.com/user/orgs") = Ok r ->
  (json_body r = None ->
   import_github env fuel user true w
   = (record_request (GET s (JStr "https://api.github.com/user/orgs")) w2,
      Raise github_orgs_error)) /\
  (forall v e,
      json_body r = Some v -> py_iter v = Err e ->
      import_github env fuel user true w
      = (record_request (GET s (JStr "https://api.github.com/user/orgs")) w2,
         Raise github_orgs_error)) /\
  (forall v org_json rest e,
      json_body r = Some v -> py_iter v = Ok (org_json :: rest) ->
      py_getitem org_json "login" = Err e ->
      import_github env fuel user true w
      = (record_request (GET s (JStr "https://api.github.com/user/orgs")) w2,
         Raise (if exn_class_eqb (exn_cls e) TypeError
                then github_orgs_error else e))) /\
  db (record_request (GET s (JStr "https://api.github.com/user/orgs")) w2) = db w2.
Proof.
  intros Hs Hlist Hrepos Hget.
  rewrite (import_github_after_repos _ _ _ _ _ _ _ Hs Hlist Hrepos).
  repeat split.
  - intros Hbody.
    unfold bind, try_except, github_org_repos, bind, session_get, response_json.
    rewrite Hget, Hbody. reflexivity.
  - intros v e Hbody Hiter.
    unfold bind, try_except, github_org_repos, bind, session_get, response_json.
    rewrite Hget, Hbody. simpl. rewrite Hiter. simpl.
    rewrite (py_iter_error _ _ Hiter). reflexivity.
  - intros v org_json rest e Hbody Hiter Hlogin.
    unfold bind, try_except, github_org_repos, bind, session_get, response_json.
    rewrite Hget, Hbody. simpl. rewrite Hiter. simpl.
    unfold bind. rewrite Hlogin. simpl. unfold caught_by. simpl.
    destruct (py_getitem_error _ _ _ Hlogin) as [Hc|Hc]; rewrite Hc; reflexivity.
Qed.

(** X11. When the listing was fetched, every listed repository was
    written and the organization listing is empty (an empty array, object
    or string alike), [import_github] ends there and returns [True]; the
    only request after the repository listing is the one for the
    organizations. *)
Theorem import_github_without_organizations fuel user s w w1 listing w2 r v :
  get_oauth_session env user GitHubProvider_id w = (w, Ret (Some s)) ->
  github_paginate env fuel s
    "https://api.github.com/user/repos?per_page=100" w = (w1, Ret listing) ->
  github_user_repos env user listing w1 = (w2, Ret tt) ->
  http_get env s (JStr "https://api.github.com/user/orgs") = Ok r ->
  json_body r = Some v ->
  py_iter v = Ok [] ->
  import_github env fuel user true w
  = (record_request (GET s (JStr "https://api.github.com/user/orgs")) w2,
     Ret true) /\
  http_log (record_request (GET s (JStr "https://api.github.com/user/orgs")) w2)
  = (http_log w1 ++ [GET s (JStr "https://api.github.com/user/orgs")])%list.
Proof.
  intros Hs Hlist Hrepos Hget Hbody Hiter.
  rewrite (import_github_after_repos _ _ _ _ _ _ _ Hs Hlist Hrepos).
  split.
  - unfold bind, try_except, github_org_repos, bind, session_get, response_json.
    rewrite Hget, Hbody. simpl. rewrite Hiter. reflexivity.
  - simpl. pose proof (github_user_repos_http_log env user listing w1) as H.
    rewrite Hrepos in H. simpl in H. rewrite H. reflexivity.
Qed.

End GithubImport.

Lemma import_github_listing_failure_unchanged_witness :
  get_oauth_session Fixture.null_listing Fixture.alice GitHubProvider_id
    Fixture.world0
  = (Fixture.world0, Ret (Some Fixture.github_session)) /\
  import_github Fixture.null_listing 1 Fixture.alice true Fixture.world0
  = (record_request (GET Fixture.github_session (JStr Fixture.repos_url))
       Fixture.world0,
     Raise (object_error TypeError JNull "is not iterable")).
Proof.
  split; [reflexivity|].
  apply (proj2 (proj2 (import_github_listing_failure_unchanged
                         Fixture.null_listing 1 Fixture.alice
                         Fixture.github_session Fixture.world0 eq_refl))
           (Fixture.page JNull None) JNull
           (object_error TypeError JNull "is not iterable")).
  - lia.
  - reflexivity.
  - reflexivity.
  - reflexivity.
Defined.

Lemma import_github_org_listing_malformed_witness :
  github_user_repos Fixture.orgs_html Fixture.alice
    [Fixture.repo_json "alice/docs"]
    (record_request (GET Fixture.github_session (JStr Fixture.repos_url))
       Fixture.world0)
  = ({| db := Fixture.store_with ["alice/docs"];
        http_log := [GET Fixture.github_session (JStr Fixture.repos_url)];
        stdout := []; log_records := [] |}, Ret tt) /\
  import_github Fixture.orgs_html 1 Fixture.alice true Fixture.world0
  = ({| db := Fixture.store_with ["alice/docs"];
        http_log := [GET Fixture.github_session (JStr Fixture.repos_url);
                     GET Fixture.github_session (JStr Fixture.orgs_url)];
        stdout := []; log_records := [] |},
     Raise github_orgs_error).
Proof.
  split; [reflexivity|].
  apply (proj1 (import_github_org_listing_malformed Fixture.orgs_html 1
                  Fixture.alice Fixture.github_session Fixture.world0
                  (record_request
                     (GET Fixture.github_session (JStr Fixture.repos_url))
                     Fixture.world0)
                  [Fixture.repo_json "alice/docs"]
                  {| db := Fixture.store_with ["alice/docs"];
                     http_log := [GET Fixture.github_session (JStr Fixture.repos_url)];
                     stdout := []; log_records := [] |}
                  Fixture.html_page eq_refl eq_refl eq_refl eq_refl)).
  reflexivity.
Defined.

(** An organization without [login]: the [KeyError] is not caught. *)
Example import_github_org_without_login :
  import_github Fixture.org_without_login 1 Fixture.alice true Fixture.world0
  = ({| db := Fixture.store_with ["alice/docs"];
        http_log := [GET Fixture.github_session (JStr Fixture.repos_url);
                     GET Fixture.github_session (JStr Fixture.orgs_url)];
        stdout := []; log_records := [] |},
     Raise (mk_exn KeyError "'login'")).
Proof. reflexivity. Qed.

Lemma import_github_without_organizations_witness :
  github_paginate Fixture.no_org 1 Fixture.github_session
    "https://api.github.com/user/repos?per_page=100" Fixture.world0
  = (record_request (GET Fixture.github_session (JStr Fixture.repos_url))
       Fixture.world0,
     Ret [Fixture.repo_json "alice/docs"; Fixture.repo_json "alice/site"]) /\
  import_github Fixture.no_org 1 Fixture.alice true Fixture.world0
  = ({| db := Fixture.store_with ["alice/docs"; "alice/site"];
        http_log := [GET Fixture.github_session (JStr Fixture.repos_url);
                     GET Fixture.github_session (JStr Fixture.orgs_url)];
        stdout := []; log_records := [] |},
     Ret true).
Proof.
  split; [reflexivity|].
  apply (proj1 (import_github_without_organizations Fixture.no_org 1
                  Fixture.alice Fixture.github_session Fixture.world0
                  (record_request
                     (GET Fixture.github_session (JStr Fixture.repos_url))
                     Fixture.world0)
                  [Fixture.repo_json "alice/docs"; Fixture.repo_json "alice/site"]
                  {| db := Fixture.store_with ["alice/docs"; "alice/site"];
                     http_log := [GET Fixture.github_session (JStr Fixture.repos_url)];
                     stdout := []; log_records := [] |}
                  (Fixture.page (JArr []) None) (JArr [])
                  eq_refl eq_refl eq_refl eq_refl eq_refl eq_refl)).
Defined.

(** ** The importers: sync flag and returned value *)

Section ImportersFrame.

Context {DB Org : Type} (env : Env DB Org).

Lemma social_account_lookup_frame user w :
  fst (try_except
         (a <- socialaccount_get env user BitbucketProvider_id ;; ret (Some a))
         [DoesNotExist] (fun _ => ret None) w) = w.
Proof.
  unfold try_except, bind, socialaccount_get, bind, lift.
  destruct (socialaccount_set env user) as [accounts|e]; simpl.
  - destruct (queryset_get _) as [a|e]; simpl; [reflexivity|].
    destruct (exn_class_eqb (exn_cls e) DoesNotExist); reflexivity.
  - destruct (exn_class_eqb (exn_cls e) DoesNotExist); reflexivity.
Qed.

(** X12. Without sync neither importer makes an HTTP call, writes to the
    database, prints or logs, whatever the stores hold and whatever the
    outcome is. *)
Theorem importers_without_sync_leave_world fuel user w :
  fst (import_github env fuel user false w) = w /\
  fst (import_bitbucket env fuel user false w) = w.
Proof.
  split.
  - unfold import_github, bind.
    pose proof (get_oauth_session_frame env user GitHubProvider_id w) as Hf.
    destruct (get_oauth_session env user GitHubProvider_id w) as [w1 o].
    simpl in Hf. subst w1. destruct o as [[s|]|e|]; reflexivity.
  - unfold import_bitbucket. unfold bind at 1.
    pose proof (get_oauth_session_frame env user BitbucketProvider_id w) as Hf.
    destruct (get_oauth_session env user BitbucketProvider_id w) as [w1 o].
    simpl in Hf. subst w1. destruct o as [session|e|]; try reflexivity.
    unfold bind at 1.
    pose proof (social_account_lookup_frame user w) as Hl.
    destruct (try_except _ _ _ w) as [w1 o].
    simpl in Hl. subst w1. destruct o as [account|e|]; try reflexivity.
    destruct session; reflexivity.
Qed.

(** X13. The boolean an importer returns tells whether a credential is
    stored for its provider and nothing else: whenever [import_github] or
    [import_bitbucket] returns, with or without sync, it returns [True] if
    the credential query found a row and [False] if it found none. *)
Theorem importers_return_credential_presence fuel user sync w :
  (forall w' b rows,
      import_github env fuel user sync w = (w', Ret b) ->
      SocialToken_filter env (username user) GitHubProvider_id = Ok rows ->
      b = match rows with [] => false | _ => true end) /\
  (forall w' b rows,
      import_bitbucket env fuel user sync w = (w', Ret b) ->
      SocialToken_filter env (username user) BitbucketProvider_id = Ok rows ->
      b = match rows with [] => false | _ => true end).
Proof.
  split; intros w' b rows Hrun Hrows.
  - unfold import_github in Hrun. destruct rows as [|t ts].
    + rewrite (bind_Ret _ _ _ _ _ (get_oauth_session_none env user _ w Hrows))
        in Hrun.
      inversion Hrun. reflexivity.
    + rewrite (bind_Ret _ _ _ _ _ (get_oauth_session_github env user t ts w Hrows))
        in Hrun.
      unfold bind at 1 in Hrun.
      match type of Hrun with
      | (let (_, _) := ?m in _) = _ => destruct m as [w1 [[]|e|]]
      end; inversion Hrun; reflexivity.
  - unfold import_bitbucket in Hrun. destruct rows as [|t ts].
    + rewrite (bind_Ret _ _ _ _ _ (get_oauth_session_none env user _ w Hrows))
        in Hrun.
      unfold bind at 1 in Hrun.
      match type of Hrun with
      | (let (_, _) := ?m in _) = _ => destruct m as [w1 [account|e|]]
      end; inversion Hrun; reflexivity.
    + rewrite (bind_Ret _ _ _ _ _ (get_oauth_session_bitbucket env user t ts w Hrows))
        in Hrun.
      unfold bind at 1 in Hrun.
      match type of Hrun with
      | (let (_, _) := ?m in _) = _ => destruct m as [w1 [account|e|]]
      end; try (inversion Hrun; fail).
      unfold bind at 1 in Hrun.
      match type of Hrun with
      | (let (_, _) := ?m in _) = _ => destruct m as [w2 [[]|e|]]
      end; inversion Hrun; reflexivity.
Qed.

End ImportersFrame.

(** ** import_bitbucket beyond its two handlers *)

Section BitbucketImport.

Context {DB Org : Type} (env : Env DB Org).

Lemma import_bitbucket_with_account fuel user s accounts account w :
  get_oauth_session env user BitbucketProvider_id w = (w, Ret (Some s)) ->
  socialaccount_set env user = Ok accounts ->
  filter is_bitbucket accounts = [account] ->
  import_bitbucket env fuel user true w
  = ((try_except (bitbucket_user_repos env fuel s user (Some account))
                 [TypeError; ValueError]
                 (fun _ => raise bitbucket_repos_error) ;;;
      resp <- session_get env s
                (JStr "https://bitbucket.org/api/1.0/user/privileges/") ;;
      try_except (bitbucket_team_repos env fuel s user resp)
                 [ValueError]
                 (fun _ => raise bitbucket_teams_error)) ;;;
     ret true) w.
Proof.
  intros Hs Ha Hone.
  pose proof (social_account_lookup env user accounts w Ha) as Hlookup.
  rewrite Hone in Hlookup. unfold import_bitbucket.
  rewrite (bind_Ret _ _ _ _ _ Hs), (bind_Ret _ _ _ _ _ Hlookup).
  reflexivity.
Qed.

Lemma import_bitbucket_after_user_repos fuel user s accounts account w w1 :
  get_oauth_session env user BitbucketProvider_id w = (w, Ret (Some s)) ->
  socialaccount_set env user = Ok accounts ->
  filter is_bitbucket accounts = [account] ->
  bitbucket_user_repos env fuel s user (Some account) w = (w1, Ret tt) ->
  import_bitbucket env fuel user true w
  = ((resp <- session_get env s
                (JStr "https://bitbucket.org/api/1.0/user/privileges/") ;;
      try_except (bitbucket_team_repos env fuel s user resp)
                 [ValueError]
                 (fun _ => raise bitbucket_teams_error)) ;;;
     ret true) w1.
Proof.
  intros Hs Ha Hone Huser.
  rewrite (import_bitbucket_with_account _ _ _ _ _ _ Hs Ha Hone).
  unfold bind at 1. unfold bind at 1.
  rewrite (try_except_Ret _ _ _ _ _ _ Huser). reflexivity.
Qed.

Lemma not_object_get v :
  (forall fields, v <> JObj fields) ->
  py_get v "next" = Err (object_error AttributeError v "has no attribute 'get'").
Proof.
  intros H. destruct v; try reflexivity. exfalso. apply (H fields). reflexivity.
Qed.

(** X8. A first page of the user's repositories that decodes to anything
    but a JSON object stops [bitbucket_paginate] at its [.get('next')],
    after one GET, with an [AttributeError]; [import_bitbucket] catches
    [TypeError] and [ValueError] only, so this error reaches the caller as
    it is and nothing is written. *)
Theorem import_bitbucket_non_object_page fuel user s accounts account w r v :
  get_oauth_session env user BitbucketProvider_id w = (w, Ret (Some s)) ->
  socialaccount_set env user = Ok accounts ->
  filter is_bitbucket accounts = [account] ->
  0 < fuel ->
  http_get env s
    (JStr ("https://bitbucket.org/api/2.0/repositories/" ++ uid account)) = Ok r ->
  json_body r = Some v ->
  (forall fields, v <> JObj fields) ->
  bitbucket_paginate env fuel s
    ("https://bitbucket.org/api/2.0/repositories/" ++ uid account) w
  = (record_request
       (GET s (JStr ("https://bitbucket.org/api/2.0/repositories/" ++ uid account)))
       w,
     Raise (object_error AttributeError v "has no attribute 'get'")) /\
  import_bitbucket env fuel user true w
  = (record_request
       (GET s (JStr ("https://bitbucket.org/api/2.0/repositories/" ++ uid account)))
       w,
     Raise (object_error AttributeError v "has no attribute 'get'")).
Proof.
  intros Hs Ha Hone Hfuel Hget Hbody Hshape.
  assert (Hpage : bitbucket_paginate env fuel s
                    ("https://bitbucket.org/api/2.0/repositories/" ++ uid account) w
                  = (record_request
                       (GET s (JStr ("https://bitbucket.org/api/2.0/repositories/"
                                       ++ uid account))) w,
                     Raise (object_error AttributeError v "has no attribute 'get'"))).
  { destruct fuel as [|fuel]; [lia|].
    unfold bitbucket_paginate. cbn [bitbucket_paginate_loop].
    change (truthy (JStr ("https://bitbucket.org/api/2.0/repositories/"
                            ++ uid account))) with true. cbv iota.
    unfold bind, session_get, response_json. rewrite Hget, Hbody. simpl.
    rewrite (not_object_get v Hshape). reflexivity. }
  split; [exact Hpage|].
  rewrite (import_bitbucket_with_account _ _ _ _ _ _ Hs Ha Hone).
  unfold bind at 1. unfold bind at 1.
  unfold try_except, bitbucket_user_repos, bind, read_local.
  unfold ret at 1. rewrite Hpage. destruct v; reflexivity.
Qed.

(** X14. After the user's repositories the team listing is read with a
    GET that stands outside any [try], and its handler catches
    [ValueError] only.  So an exception of that GET, a privileges object
    without [teams] ([KeyError]), a privileges answer that is no object
    ([TypeError]) and [teams] that are no object ([AttributeError]) all
    reach the caller unchanged; only a privileges answer that is not JSON
    gives the team reconnect error. *)
Theorem import_bitbucket_team_listing_unusable
        fuel user s accounts account w w1 :
  get_oauth_session env user BitbucketProvider_id w = (w, Ret (Some s)) ->
  socialaccount_set env user = Ok accounts ->
  filter is_bitbucket accounts = [account] ->
  bitbucket_user_repos env fuel s user (Some account) w = (w1, Ret tt) ->
  (forall e,
      http_get env s (JStr "https://bitbucket.org/api/1.0/user/privileges/") = Err e ->
      import_bitbucket env fuel user true w
      = (record_request
           (GET s (JStr "https://bitbucket.org/api/1.0/user/privileges/")) w1,
         Raise e)) /\
  (forall r v e,
      http_get env s (JStr "https://bitbucket.org/api/1.0/user/privileges/") = Ok r ->
      json_body r = Some v ->
      py_getitem v "teams" = Err e ->
      import_bitbucket env fuel user true w
      = (record_request
           (GET s (JStr "https://bitbucket.org/api/1.0/user/privileges/")) w1,
         Raise e)) /\
  (forall r v teams e,
      http_get env s (JStr "https://bitbucket.org/api/1.0/user/privileges/") = Ok r ->
      json_body r = Some v ->
      py_getitem v "teams" = Ok teams ->
      py_keys teams = Err e ->
      import_bitbucket env fuel user true w
      = (record_request
           (GET s (JStr "https://bitbucket.org/api/1.0/user/privileges/")) w1,
         Raise e)) /\
  (forall r,
      http_get env s (JStr "https://bitbucket.org/api/1.0/user/privileges/") = Ok r ->
      json_body r = None ->
      import_bitbucket env fuel user true w
      = (record_request
           (GET s (JStr "https://bitbucket.org/api/1.0/user/privileges/")) w1,
         Raise bitbucket_teams_error)).
Proof.
  intros Hs Ha Hone Huser.
  rewrite (import_bitbucket_after_user_repos _ _ _ _ _ _ _ Hs Ha Hone Huser).
  repeat split.
  - intros e Hget. unfold bind, session_get. rewrite Hget. reflexivity.
  - intros r v e Hget Hbody Hteams.
    unfold bind, session_get, try_except, bitbucket_team_repos, bind, response_json.
    rewrite Hget, Hbody. simpl. rewrite Hteams. simpl.
    unfold caught_by. simpl.
    destruct (py_getitem_error _ _ _ Hteams) as [Hc|Hc]; rewrite Hc; reflexivity.
  - intros r v teams e Hget Hbody Hteams Hkeys.
    unfold bind, session_get, try_except, bitbucket_team_repos, bind, response_json.
    rewrite Hget, Hbody. simpl. rewrite Hteams. simpl. rewrite Hkeys. simpl.
    unfold caught_by. simpl. rewrite (py_keys_error _ _ Hkeys). reflexivity.
  - intros r Hget Hbody.
    unfold bind, session_get, try_except, bitbucket_team_repos, bind, response_json.
    rewrite Hget, Hbody. reflexivity.
Qed.

Lemma process_pages_flat user :
  forall pages groups,
    Forall2 (fun page repos => page_repos page = Ok repos) pages groups ->
    forall w,
      process_pages env user pages w
      = for_each (concat groups)
          (fun repo => db_call (repo_create_from_bitbucket_api env repo user)) w.
Proof.
  induction 1 as [|page repos pages groups Hpage Hrest IH]; intros w.
  - reflexivity.
  - simpl concat. rewrite for_each_app.
    unfold process_pages in *. simpl for_each.
    unfold page_repos in Hpage.
    destruct (py_getitem page "values") as [values|e]; [|discriminate].
    unfold bind at 1. unfold bind at 1. simpl.
    unfold bind at 1. rewrite Hpage. simpl.
    unfold bind.
    destruct (for_each repos _ w) as [w1 [[]|e|]]; try reflexivity.
    apply IH.
Qed.

(** X15. For page groups of the right shape (each an object whose
    [values] can be iterated) [process_bitbucket_json] is the same as
    creating the repositories of all groups one after the other, in page
    order: when every creation succeeds, it returns normally in the world
    these creations leave, and prints nothing. *)
Theorem process_bitbucket_json_creates_all_values user pages groups w w2 :
  Forall2 (fun page repos => page_repos page = Ok repos) pages groups ->
  for_each (concat groups)
    (fun repo => db_call (repo_create_from_bitbucket_api env repo user)) w
  = (w2, Ret tt) ->
  process_bitbucket_json env user pages w = (w2, Ret tt) /\
  stdout w2 = stdout w /\
  http_log w2 = http_log w.
Proof.
  intros Hshape Hrun.
  assert (Hpages : process_pages env user pages w = (w2, Ret tt))
    by (rewrite (process_pages_flat user pages groups Hshape); exact Hrun).
  split.
  - unfold process_bitbucket_json. apply (try_except_Ret _ _ _ _ _ _ Hpages).
  - clear Hshape Hpages. revert w Hrun.
    induction (concat groups) as [|repo rest IH]; intros w Hrun.
    + inversion Hrun. auto.
    + simpl in Hrun. unfold bind in Hrun.
      unfold db_call at 1 in Hrun.
      destruct (repo_create_from_bitbucket_api env repo user (db w)) as [d [[]|e]];
        [|discriminate].
      destruct (IH _ Hrun) as [Hout Hlog]. simpl in Hout, Hlog. auto.
Qed.

(** X16. A complete Bitbucket import without teams: when the pages of the
    user's repositories were fetched, have the right shape and every
    repository in them was created, and the privileges answer lists no
    team, [import_bitbucket] returns [True]; the database is the one these
    creations leave and the privileges GET is the last request. *)
Theorem import_bitbucket_without_teams
        fuel user s accounts account w w1 pages groups w2 r v teams :
  get_oauth_session env user BitbucketProvider_id w = (w, Ret (Some s)) ->
  socialaccount_set env user = Ok accounts ->
  filter is_bitbucket accounts = [account] ->
  bitbucket_paginate env fuel s
    ("https://bitbucket.org/api/2.0/repositories/" ++ uid account) w
  = (w1, Ret pages) ->
  Forall2 (fun page repos => page_repos page = Ok repos) pages groups ->
  for_each (concat groups)
    (fun repo => db_call (repo_create_from_bitbucket_api env repo user)) w1
  = (w2, Ret tt) ->
  http_get env s (JStr "https://bitbucket.org/api/1.0/user/privileges/") = Ok r ->
  json_body r = Some v ->
  py_getitem v "teams" = Ok teams ->
  py_keys teams = Ok [] ->
  import_bitbucket env fuel user true w
  = (record_request
       (GET s (JStr "https://bitbucket.org/api/1.0/user/privileges/")) w2,
     Ret true).
Proof.
  intros Hs Ha Hone Hpag Hshape Hrun Hget Hbody Hteams Hkeys.
  assert (Hproc : process_bitbucket_json env user pages w1 = (w2, Ret tt)).
  { unfold process_bitbucket_json. apply try_except_Ret.
    rewrite (process_pages_flat user pages groups Hshape). exact Hrun. }
  assert (Huser : bitbucket_user_repos env fuel s user (Some account) w
                  = (w2, Ret tt)).
  { unfold bitbucket_user_repos, bind, read_local. unfold ret at 1.
    rewrite Hpag. exact Hproc. }
  rewrite (import_bitbucket_after_user_repos _ _ _ _ _ _ _ Hs Ha Hone Huser).
  unfold bind, session_get, try_except, bitbucket_team_repos, bind, response_json.
  rewrite Hget, Hbody. simpl. rewrite Hteams. simpl. rewrite Hkeys. reflexivity.
Qed.

End BitbucketImport.

Lemma import_bitbucket_non_object_page_witness :
  http_get Fixture.array_page Fixture.bitbucket_session (JStr Fixture.bb_url)
  = Ok (Fixture.page (JArr [Fixture.repo_json "alice/docs"]) None) /\
  import_bitbucket Fixture.array_page 1 Fixture.alice true Fixture.world0
  = (record_request (GET Fixture.bitbucket_session (JStr Fixture.bb_url))
       Fixture.world0,
     Raise (mk_exn AttributeError "'list' object has no attribute 'get'")).
Proof.
  split; [reflexivity|].
  apply (proj2 (import_bitbucket_non_object_page Fixture.array_page 1
                  Fixture.alice Fixture.bitbucket_session
                  [{| provider := "bitbucket"; uid := "alice" |}]
                  {| provider := "bitbucket"; uid := "alice" |}
                  Fixture.world0
                  (Fixture.page (JArr [Fixture.repo_json "alice/docs"]) None)
                  (JArr [Fixture.repo_json "alice/docs"])
                  eq_refl eq_refl eq_refl ltac:(lia) eq_refl eq_refl
                  ltac:(discriminate))).
Defined.

Lemma import_bitbucket_team_listing_unusable_witness :
  bitbucket_user_repos Fixture.list_privileges 1 Fixture.bitbucket_session
    Fixture.alice (Some {| provider := "bitbucket"; uid := "alice" |})
    Fixture.world0
  = (record_request (GET Fixture.bitbucket_session (JStr Fixture.bb_url))
       Fixture.world0, Ret tt) /\
  import_bitbucket Fixture.list_privileges 1 Fixture.alice true Fixture.world0
  = (add_requests
       (gets Fixture.bitbucket_session
          [JStr Fixture.bb_url; JStr Fixture.privileges_url]) Fixture.world0,
     Raise (mk_exn TypeError "list indices must be integers or slices, not str")).
Proof.
  split; [reflexivity|].
  apply (proj1 (proj2 (import_bitbucket_team_listing_unusable
                         Fixture.list_privileges 1 Fixture.alice
                         Fixture.bitbucket_session
                         [{| provider := "bitbucket"; uid := "alice" |}]
                         {| provider := "bitbucket"; uid := "alice" |}
                         Fixture.world0
                         (record_request
                            (GET Fixture.bitbucket_session (JStr Fixture.bb_url))
                            Fixture.world0)
                         eq_refl eq_refl eq_refl eq_refl))
           (Fixture.page (JArr []) None) (JArr [])
           (mk_exn TypeError "list indices must be integers or slices, not str")
           eq_refl eq_refl eq_refl).
Defined.

Lemma process_bitbucket_json_creates_all_values_witness :
  Forall2 (fun page repos => page_repos page = Ok repos)
    [Fixture.bb_page1; Fixture.bb_page2]
    [[Fixture.repo_json "alice/docs"]; [Fixture.repo_json "alice/site"]] /\
  process_bitbucket_json Fixture.no_team Fixture.alice
    [Fixture.bb_page1; Fixture.bb_page2] Fixture.world0
  = ({| db := Fixture.store_with ["alice/docs"; "alice/site"]; http_log := [];
        stdout := []; log_records := [] |}, Ret tt).
Proof.
  assert (H : Forall2 (fun page repos => page_repos page = Ok repos)
                [Fixture.bb_page1; Fixture.bb_page2]
                [[Fixture.repo_json "alice/docs"]; [Fixture.repo_json "alice/site"]]).
  { repeat constructor. }
  split; [exact H|].
  apply (proj1 (process_bitbucket_json_creates_all_values Fixture.no_team
                  Fixture.alice _ _ Fixture.world0 _ H eq_refl)).
Defined.

Lemma import_bitbucket_without_teams_witness :
  bitbucket_paginate Fixture.no_team 2 Fixture.bitbucket_session
    Fixture.bb_url Fixture.world0
  = (add_requests
       (gets Fixture.bitbucket_session [JStr Fixture.bb_url; JStr Fixture.bb_url2])
       Fixture.world0,
     Ret [Fixture.bb_page1; Fixture.bb_page2]) /\
  import_bitbucket Fixture.no_team 2 Fixture.alice true Fixture.world0
  = ({| db := Fixture.store_with ["alice/docs"; "alice/site"];
        http_log :=
          gets Fixture.bitbucket_session
            [JStr Fixture.bb_url; JStr Fixture.bb_url2;
             JStr Fixture.privileges_url];
        stdout := []; log_records := [] |},
     Ret true).
Proof.
  split; [reflexivity|].
  apply (import_bitbucket_without_teams Fixture.no_team 2 Fixture.alice
           Fixture.bitbucket_session
           [{| provider := "bitbucket"; uid := "alice" |}]
           {| provider := "bitbucket"; uid := "alice" |}
           Fixture.world0
           (add_requests
              (gets Fixture.bitbucket_session
                 [JStr Fixture.bb_url; JStr Fixture.bb_url2]) Fixture.world0)
           [Fixture.bb_page1; Fixture.bb_page2]
           [[Fixture.repo_json "alice/docs"]; [Fixture.repo_json "alice/site"]]
           {| db := Fixture.store_with ["alice/docs"; "alice/site"];
              http_log :=
                gets Fixture.bitbucket_session
                  [JStr Fixture.bb_url; JStr Fixture.bb_url2];
              stdout := []; log_records := [] |}
           (Fixture.page Fixture.no_teams None) Fixture.no_teams (JObj [])
           eq_refl eq_refl eq_refl eq_refl
           ltac:(repeat constructor) eq_refl eq_refl eq_refl eq_refl eq_refl).
Defined.

(** ** The webhook registrars *)

Section Webhooks.

Context {DB Org : Type} (env : Env DB Org).
Context (get_bitbucket_username_repo : string -> option string * option string)
        (urlencode : list (string * string) -> string).

(** X17. For a project whose URL parses as [owner] and [repo_name],
    [add_bitbucket_webhook] issues exactly one POST, to the services URL
    of that repository, with the form fields [type=POST] and
    [url=https://<PRODUCTION_DOMAIN>/bitbucket] and no header of its own.
    The answer is returned whatever its status code, after one info log
    line; an exception of the POST is passed on without a log line.  The
    database is not touched. *)
Theorem add_bitbucket_webhook_posts_form session project owner repo_name w :
  get_bitbucket_username_repo (repo project) = (Some owner, Some repo_name) ->
  http_log (fst (add_bitbucket_webhook env get_bitbucket_username_repo urlencode
                   session project w))
  = List.app (http_log w)
      [POST session
            ("https://api.bitbucket.org/1.0/repositories/" ++ owner ++ "/"
               ++ repo_name ++ "/services")
            (urlencode
               [("type", "POST");
                ("url", "https://" ++ PRODUCTION_DOMAIN env ++ "/bitbucket")])
            []] /\
  db (fst (add_bitbucket_webhook env get_bitbucket_username_repo urlencode
             session project w)) = db w /\
  (forall resp,
      http_post env session
        ("https://api.bitbucket.org/1.0/repositories/" ++ owner ++ "/"
           ++ repo_name ++ "/services")
        (urlencode (bitbucket_webhook_data env)) [] = Ok resp ->
      snd (add_bitbucket_webhook env get_bitbucket_username_repo urlencode
             session project w) = Ret resp /\
      log_records (fst (add_bitbucket_webhook env get_bitbucket_username_repo
                          urlencode session project w))
      = List.app (log_records w)
          [("info", "Creating BitBucket webhook response code: "
                      ++ dec (status_code resp))]) /\
  (forall e,
      http_post env session
        ("https://api.bitbucket.org/1.0/repositories/" ++ owner ++ "/"
           ++ repo_name ++ "/services")
        (urlencode (bitbucket_webhook_data env)) [] = Err e ->
      snd (add_bitbucket_webhook env get_bitbucket_username_repo urlencode
             session project w) = Raise e /\
      log_records (fst (add_bitbucket_webhook env get_bitbucket_username_repo
                          urlencode session project w))
      = log_records w).
Proof.
  intros Hparse. unfold add_bitbucket_webhook. rewrite Hparse.
  unfold bind, session_post. simpl format_opt.
  repeat split.
  - destruct (http_post env session _ _ _); reflexivity.
  - destruct (http_post env session _ _ _); reflexivity.
  - rewrite H. reflexivity.
  - rewrite H. reflexivity.
  - rewrite H. reflexivity.
  - rewrite H. reflexivity.
Qed.

(** X18. [add_github_webhook] does not check what the URL parser
    answers nor what the vendor answers: for a project whose URL gives
    neither owner nor repository it still posts, to
    [https://api.github.com/repos/None/None/hooks], and an answer of any
    status code is returned as it is, after one info log line with the
    code. *)
Theorem add_github_webhook_unchecked session project resp w :
  get_github_username_repo env (repo project) = (None, None) ->
  http_post env session "https://api.github.com/repos/None/None/hooks"
    (json_dumps (github_webhook_payload env))
    [("content-type", "application/json")] = Ok resp ->
  add_github_webhook env session project w
  = (add_log "info"
       ("Creating GitHub webhook response code: " ++ dec (status_code resp))
       (record_request
          (POST session "https://api.github.com/repos/None/None/hooks"
                (json_dumps (github_webhook_payload env))
                [("content-type", "application/json")]) w),
     Ret resp).
Proof.
  intros Hparse Hpost. unfold add_github_webhook. rewrite Hparse.
  unfold bind, session_post. simpl format_opt.
  change ("https://api.github.com/repos/" ++ "None" ++ "/" ++ "None" ++ "/hooks")
    with "https://api.github.com/repos/None/None/hooks".
  rewrite Hpost. reflexivity.
Qed.

(** X19. Neither registrar looks for an existing webhook: registering the
    same project twice sends the same POST twice. *)
Theorem webhooks_not_deduplicated session project w :
  (forall resp,
      http_post env session
        ("https://api.github.com/repos/"
           ++ format_opt (fst (get_github_username_repo env (repo project)))
           ++ "/"
           ++ format_opt (snd (get_github_username_repo env (repo project)))
           ++ "/hooks")
        (json_dumps (github_webhook_payload env))
        [("content-type", "application/json")] = Ok resp ->
      exists q,
        http_log (fst ((add_github_webhook env session project ;;;
                        add_github_webhook env session project) w))
        = (http_log w ++ [q; q])%list) /\
  (forall resp,
      http_post env session
        ("https://api.bitbucket.org/1.0/repositories/"
           ++ format_opt (fst (get_bitbucket_username_repo (repo project)))
           ++ "/"
           ++ format_opt (snd (get_bitbucket_username_repo (repo project)))
           ++ "/services")
        (urlencode (bitbucket_webhook_data env)) [] = Ok resp ->
      exists q,
        http_log (fst ((add_bitbucket_webhook env get_bitbucket_username_repo
                          urlencode session project ;;;
                        add_bitbucket_webhook env get_bitbucket_username_repo
                          urlencode session project) w))
        = (http_log w ++ [q; q])%list).
Proof.
  split; intros resp Hpost.
  - destruct (get_github_username_repo env (repo project))
      as [owner repo_name] eqn:Hparse.
    cbn [fst snd] in Hpost.
    assert (Hone : forall w0,
               fst (add_github_webhook env session project w0)
               = add_log "info"
                   ("Creating GitHub webhook response code: "
                      ++ dec (status_code resp))
                   (record_request
                      (POST session
                         ("https://api.github.com/repos/" ++ format_opt owner
                            ++ "/" ++ format_opt repo_name ++ "/hooks")
                         (json_dumps (github_webhook_payload env))
                         [("content-type", "application/json")]) w0) /\
               snd (add_github_webhook env session project w0) = Ret resp).
    { intros w0. unfold add_github_webhook. rewrite Hparse.
      unfold bind, session_post. rewrite Hpost. split; reflexivity. }
    eexists. unfold bind at 1.
    destruct (Hone w) as [Hw Ho].
    destruct (add_github_webhook env session project w) as [w1 o].
    cbn [fst snd] in Hw, Ho. subst w1 o.
    rewrite (proj1 (Hone _)). unfold add_log, record_request.
    cbn [http_log]. rewrite <- app_assoc. reflexivity.
  - destruct (get_bitbucket_username_repo (repo project))
      as [owner repo_name] eqn:Hparse.
    cbn [fst snd] in Hpost.
    assert (Hone : forall w0,
               fst (add_bitbucket_webhook env get_bitbucket_username_repo
                      urlencode session project w0)
               = add_log "info"
                   ("Creating BitBucket webhook response code: "
                      ++ dec (status_code resp))
                   (record_request
                      (POST session
                         ("https://api.bitbucket.org/1.0/repositories/"
                            ++ format_opt owner ++ "/" ++ format_opt repo_name
                            ++ "/services")
                         (urlencode (bitbucket_webhook_data env)) []) w0) /\
               snd (add_bitbucket_webhook env get_bitbucket_username_repo
                      urlencode session project w0) = Ret resp).
    { intros w0. unfold add_bitbucket_webhook. rewrite Hparse.
      unfold bind, session_post. rewrite Hpost. split; reflexivity. }
    eexists. unfold bind at 1.
    destruct (Hone w) as [Hw Ho].
    destruct (add_bitbucket_webhook env get_bitbucket_username_repo urlencode
                session project w) as [w1 o].
    cbn [fst snd] in Hw, Ho. subst w1 o.
    rewrite (proj1 (Hone _)). unfold add_log, record_request.
    cbn [http_log]. rewrite <- app_assoc. reflexivity.
Qed.

End Webhooks.

Lemma add_bitbucket_webhook_posts_form_witness :
  Fixture.parse_bitbucket_url (repo Fixture.bitbucket_project)
  = (Some "owner", Some "repo") /\
  http_log (fst (add_bitbucket_webhook Fixture.hooks Fixture.parse_bitbucket_url
                   Fixture.urlencode Fixture.bitbucket_session
                   Fixture.bitbucket_project Fixture.world0))
  = [POST Fixture.bitbucket_session
          "https://api.bitbucket.org/1.0/repositories/owner/repo/services"
          "type=POST&url=https%3A%2F%2Freadthedocs.org%2Fbitbucket" []].
Proof.
  split; [reflexivity|].
  apply (proj1 (add_bitbucket_webhook_posts_form Fixture.hooks
                  Fixture.parse_bitbucket_url Fixture.urlencode
                  Fixture.bitbucket_session Fixture.bitbucket_project
                  "owner" "repo" Fixture.world0 eq_refl)).
Defined.

Lemma add_github_webhook_unchecked_witness :
  get_github_username_repo Fixture.refusing (repo Fixture.python_project)
  = (None, None) /\
  snd (add_github_webhook Fixture.refusing Fixture.github_session
         Fixture.python_project Fixture.world0)
  = Ret Fixture.not_found /\
  log_records (fst (add_github_webhook Fixture.refusing Fixture.github_session
                      Fixture.python_project Fixture.world0))
  = [("info", "Creating GitHub webhook response code: 404")].
Proof.
  split; [reflexivity|].
  rewrite (add_github_webhook_unchecked Fixture.refusing Fixture.github_session
             Fixture.python_project Fixture.not_found Fixture.world0
             eq_refl eq_refl).
  split; reflexivity.
Defined.
